(** * Account routes of the Snapchat client: a shallow embedding

    This development models [routes/account.js]: the account-settings
    operations of the client, the parameter mappings they hand to the
    transport, the way they interpret response bodies and the one place
    where the cached session is written.

    JavaScript values are an inductive type, numbers are the integer-valued
    ones (as [Z]), strings are byte strings (the UTF-8 encoding of the
    JavaScript string), objects are association lists in insertion order.
    Effects (transport requests, callback invocations, the decode step,
    writes to the session, exceptions) are threaded through a small
    state-and-exception monad whose state carries the client and a trace. *)

From Stdlib Require Import ZArith List String Ascii Bool Lia DecimalString.
Import ListNotations.

Open Scope string_scope.
Open Scope Z_scope.

Set Warnings "-register-all".

(** ** JavaScript values *)

Inductive value : Type :=
| JUndefined
| JNull
| JBool (b : bool)
| JNum (n : Z)
| JStr (s : string)
| JArr (items : list value)
| JObj (props : list (string * value))
| JFun (id : nat)
| JBuffer (bytes : string).

(** [ToBoolean]: what [if (v)], [v ? a : b], [!!v] and [||] test. *)
Definition truthy (v : value) : bool :=
  match v with
  | JUndefined | JNull => false
  | JBool b => b
  | JNum n => negb (n =? 0)
  | JStr s => negb (String.eqb s "")
  | JArr _ | JObj _ | JFun _ | JBuffer _ => true
  end.

(** [a || b]: the left operand when it is truthy, else the right one. *)
Definition js_or (a b : value) : value := if truthy a then a else b.

(** [typeof v === 'function'] *)
Definition is_function (v : value) : bool :=
  match v with JFun _ => true | _ => false end.

(** ** Integer coercion: [x | 0] *)

Definition ToInt32 (n : Z) : Z :=
  let m := n mod 2 ^ 32 in
  if 2 ^ 31 <=? m then m - 2 ^ 32 else m.

Definition js_bitor (a b : Z) : Z := ToInt32 (Z.lor (ToInt32 a) (ToInt32 b)).

(** [Math.min] on two integers. *)
Definition Math_min (a b : Z) : Z := Z.min a b.

(** ** Plain objects

    A [JObj] is a plain object (prototype [Object.prototype]) given by its
    own enumerable properties in insertion order. *)

Fixpoint assoc (k : string) (props : list (string * value)) : option value :=
  match props with
  | [] => None
  | (k', v) :: rest => if String.eqb k k' then Some v else assoc k rest
  end.

(** [o[k] = v] on the own properties of a plain object: an existing key keeps
    its position, a new key goes last. *)
Fixpoint obj_set (k : string) (v : value) (props : list (string * value))
  : list (string * value) :=
  match props with
  | [] => [(k, v)]
  | (k', v') :: rest =>
      if String.eqb k k' then (k, v) :: rest else (k', v') :: obj_set k v rest
  end.

(** Keys for which own-property lookup and insertion order tell the whole
    story: not a member inherited from [Object.prototype], and not an array
    index (JavaScript enumerates index keys first, in numeric order). *)
Definition Object_prototype_keys : list string :=
  [ "constructor"; "toString"; "toLocaleString"; "valueOf"; "hasOwnProperty";
    "isPrototypeOf"; "propertyIsEnumerable"; "__proto__"; "__defineGetter__";
    "__defineSetter__"; "__lookupGetter__"; "__lookupSetter__" ].

Definition is_digit (c : ascii) : bool :=
  let n := nat_of_ascii c in (48 <=? n)%nat && (n <=? 57)%nat.

Fixpoint all_digits (s : string) : bool :=
  match s with
  | EmptyString => true
  | String c r => is_digit c && all_digits r
  end.

Definition is_array_index (k : string) : bool :=
  match k with
  | EmptyString => false
  | String c r => all_digits k
  end.

Definition plain_key (k : string) : bool :=
  negb (existsb (String.eqb k) Object_prototype_keys) && negb (is_array_index k).

(** ** JSON.stringify *)

Definition dquote : string := String (ascii_of_nat 34) EmptyString.
Definition backslash : string := String (ascii_of_nat 92) EmptyString.

Definition hex_digit (n : nat) : string :=
  match n with
  | 0 => "0" | 1 => "1" | 2 => "2" | 3 => "3" | 4 => "4" | 5 => "5"
  | 6 => "6" | 7 => "7" | 8 => "8" | 9 => "9" | 10 => "a" | 11 => "b"
  | 12 => "c" | 13 => "d" | 14 => "e" | _ => "f"
  end%nat.

(** One character of a quoted JSON string (the [Quote] operation of
    ECMAScript): the quote and the backslash are escaped, control characters
    use their short escape or [\u00XX], every other byte is copied. *)
Definition quote_char (c : ascii) : string :=
  let n := nat_of_ascii c in
  if (n =? 34)%nat then backslash ++ dquote
  else if (n =? 92)%nat then backslash ++ backslash
  else if (n =? 8)%nat then backslash ++ "b"
  else if (n =? 12)%nat then backslash ++ "f"
  else if (n =? 10)%nat then backslash ++ "n"
  else if (n =? 13)%nat then backslash ++ "r"
  else if (n =? 9)%nat then backslash ++ "t"
  else if (n <? 32)%nat then
    backslash ++ "u00" ++ hex_digit (n / 16) ++ hex_digit (n mod 16)
  else String c EmptyString.

Fixpoint quote_chars (s : string) : string :=
  match s with
  | EmptyString => EmptyString
  | String c r => quote_char c ++ quote_chars r
  end.

Definition Quote (s : string) : string := dquote ++ quote_chars s ++ dquote.

(** Decimal text of an integer-valued number (JavaScript switches to
    exponent notation from 10^21 on; such magnitudes are not used here). *)
Definition Number_toString (n : Z) : string := NilZero.string_of_int (Z.to_int n).

(** [SerializeJSONProperty]: [None] stands for JavaScript's [undefined]
    result (for [undefined] and functions).  Inside an array such an element
    is written [null]; inside an object the property is left out.  A Buffer
    is serialized through its [toJSON] method.  A [toJSON] property of a
    plain object is written like any other property, not called, and keys
    are written in insertion order: the statements below keep to objects
    without such a method and with plain keys, and to integers below 10^21
    in magnitude. *)
Fixpoint serialize (v : value) : option string :=
  match v with
  | JUndefined => None
  | JFun _ => None
  | JNull => Some "null"
  | JBool b => Some (if b then "true" else "false")
  | JNum n => Some (Number_toString n)
  | JStr s => Some (Quote s)
  | JArr items =>
      Some ("[" ++ String.concat ","
                     (map (fun x => match serialize x with
                                    | Some t => t
                                    | None => "null"
                                    end) items) ++ "]")
  | JObj props =>
      Some ("{" ++ String.concat ","
                     (flat_map (fun kv => match serialize (snd kv) with
                                          | Some t => [Quote (fst kv) ++ ":" ++ t]
                                          | None => []
                                          end) props) ++ "}")
  | JBuffer bytes =>
      Some ("{" ++ Quote "type" ++ ":" ++ Quote "Buffer" ++ "," ++ Quote "data" ++ ":["
                ++ String.concat ","
                     (map (fun c => Number_toString (Z.of_nat (nat_of_ascii c)))
                          (list_ascii_of_string bytes)) ++ "]}")
  end.

Definition JSON_stringify (v : value) : value :=
  match serialize v with
  | Some t => JStr t
  | None => JUndefined
  end.

(** [o[k]] for reading.  On [undefined] and [null] JavaScript raises a
    TypeError, which the callers below turn into an exception.  On a plain
    object the own property is looked up (see [plain_key] for the keys this
    covers); the other kinds of value have no own property under the keys
    used in this file. *)
Definition get_own (o : value) (k : string) : option value :=
  match o with
  | JUndefined | JNull => None
  | JObj props => Some (match assoc k props with Some v => v | None => JUndefined end)
  | _ => Some JUndefined
  end.

(** ** The client, its cached session and the effects of an operation *)

Record Session : Type := mkSession {
  bestFriendUsernames : value;
  enableFrontFacingFlash : value;
  enableReplaySnaps : value;
  enableSmartFilters : value;
  enableVisualFilters : value;
  enablePowerSaveMode : value;
  enableSpecialText : value;
  enableSwipeCashMode : value;
  enableTravelMode : value;
  QRPath : value
}.

Record Client : Type := mkClient {
  username : value;
  currentSession : Session
}.

Definition with_bestFriendUsernames (v : value) (s : Session) : Session :=
  mkSession v (enableFrontFacingFlash s) (enableReplaySnaps s) (enableSmartFilters s)
            (enableVisualFilters s) (enablePowerSaveMode s) (enableSpecialText s)
            (enableSwipeCashMode s) (enableTravelMode s) (QRPath s).

(** [constants.endpoints]: the path identifiers used by this route group. *)
Inductive Endpoint : Type :=
| account_setBestsCount
| account_settings
| account_snaptag
| account_avatar_get
| update_featureSettings
| update_user.

(** [constants.featureSettings]: the eight wire names of the feature flags. *)
Record FeatureSettings : Type := mkFeatureSettings {
  frontFacingFlash : string;
  replaySnaps : string;
  smartFilters : string;
  visualFilters : string;
  powerSaveMode : string;
  specialText : string;
  swipeCashMode : string;
  travelMode : string
}.

Definition feature_names (fs : FeatureSettings) : list string :=
  [ frontFacingFlash fs; replaySnaps fs; smartFilters fs; visualFilters fs;
    powerSaveMode fs; specialText fs; swipeCashMode fs; travelMode fs ].

Definition cached_flags (s : Session) : list value :=
  [ enableFrontFacingFlash s; enableReplaySnaps s; enableSmartFilters s;
    enableVisualFilters s; enablePowerSaveMode s; enableSpecialText s;
    enableSwipeCashMode s; enableTravelMode s ].

(** What the transport hands to the callback of a request. *)
Record Reply : Type := mkReply {
  err : value;
  response : value;
  body : value
}.

(** Observable effects, in the order they happen. *)
Inductive Event : Type :=
| EvPost (path : Endpoint) (params : value)
| EvCall (callback : value) (args : list value)
| EvDecompress (data : value).

Record World : Type := mkWorld {
  client : Client;
  trace : list Event
}.

Inductive Exception : Type :=
| Error (message : string)
| TypeError (message : string).

Inductive Completion (A : Type) : Type :=
| Normal (a : A)
| Throw (e : Exception).
Arguments Normal {A} a.
Arguments Throw {A} e.

(** The monad of an operation: it reads and writes the world and either
    completes normally or throws. *)
Definition Js (A : Type) : Type := World -> Completion A * World.

Definition ret {A : Type} (a : A) : Js A := fun w => (Normal a, w).

Definition bind {A B : Type} (m : Js A) (k : A -> Js B) : Js B :=
  fun w =>
    match m w with
    | (Normal a, w') => k a w'
    | (Throw e, w') => (Throw e, w')
    end.

Definition throw {A : Type} (e : Exception) : Js A := fun w => (Throw e, w).

Notation "x <- m ;; k" := (bind m (fun x => k))
  (at level 61, m at next level, right associativity).
Notation "m ;;; k" := (bind m (fun _ => k))
  (at level 61, right associativity).

Definition emit (e : Event) : Js unit :=
  fun w => (Normal tt, mkWorld (client w) (trace w ++ [e])).

Definition self_client : Js Client := fun w => (Normal (client w), w).

Definition set_bestFriendUsernames (v : value) : Js unit :=
  fun w =>
    (Normal tt,
     mkWorld (mkClient (username (client w))
                       (with_bestFriendUsernames v (currentSession (client w))))
             (trace w)).

Definition get_prop (o : value) (k : string) : Js value :=
  match get_own o k with
  | Some v => ret v
  | None => throw (TypeError "Cannot read property of undefined or null")
  end.

(** [f(args)]: the invocation of a caller-supplied function is recorded in
    the trace; what the function itself does is outside this module.
    Calling anything else raises a TypeError. *)
Definition call (f : value) (args : list value) : Js unit :=
  if is_function f then emit (EvCall f args)
  else throw (TypeError "callback is not a function").

(** [new Buffer(body)].  A response body is a string or a Buffer; either way
    the new Buffer holds the bytes of the body.  [undefined] and [null] raise
    a TypeError in Node; the remaining kinds (a size, an array) are not
    response bodies and are given the same treatment here. *)
Definition Buffer_new (v : value) : Js value :=
  match v with
  | JStr s => ret (JBuffer s)
  | JBuffer bytes => ret (JBuffer bytes)
  | _ => throw (TypeError "must start with number, buffer, array or string")
  end.

(** ** The operations of [routes/account.js]

    The modules the file requires are not part of it; they are the
    parameters of this section. *)

Section Account.

(** The reply of the transport to a request, by path and parameters. *)
Variable transport : Endpoint -> value -> Reply.

(** [StringUtils.tryParseJSON]: the parsed body, or a falsy value when the
    body is not JSON. *)
Variable tryParseJSON : value -> value.

(** [constants.stringFromStoryPrivacy] and [constants.featureSettings]. *)
Variable stringFromStoryPrivacy : Z -> value.
Variable featureSettings : FeatureSettings.

(** [new SKBlob(buffer)], and the arguments [SKBlob.decompress(buffer, cb)]
    passes to [cb] when it is done. *)
Variable SKBlob_new : value -> value.
Variable SKBlob_decompress_result : value -> list value.

(** Modelled from the spec: the Transport collaborator
    [self.client.post(path, params, callback)], which is not among the
    sources.  The spec has it execute one authenticated request with a path
    and a parameter mapping and return a transport failure or a raw
    response body: one request goes out, and [callback(err, response, body)]
    runs once with the reply. *)
Definition post (path : Endpoint) (params : value) (callback : Reply -> Js unit)
  : Js unit :=
  emit (EvPost path params) ;;; callback (transport path params).

(** A caller's [cb] handed to [post] as it is: the transport calls it with
    [(err, response, body)]. *)
Definition forward (cb : value) (r : Reply) : Js unit :=
  call cb [err r; response r; body r].

(** Modelled from the spec: the BlobCodec collaborator
    [SKBlob.decompress(data, cb)] of models/blob, which is not among the
    sources.  The spec has it decode the raw payload into the final bytes or
    fail with a failure of its own kind: the decode step runs on [data], and
    [cb] receives what it produces. *)
Definition SKBlob_decompress (data cb : value) : Js unit :=
  emit (EvDecompress data) ;;; call cb (SKBlob_decompress_result data).

(** The message of line 51. *)
Definition parse_error : string :=
  "Snapchat.Account.updateBestFriendsCount parse error".

(** [Account.prototype.updateBestFriendsCount] (lines 29-53).  Here and
    below the [debug] calls only log and are left out. *)
Definition updateBestFriendsCount (number : Z) (cb : value) : Js unit :=
  let number := if number <? 3 then 3 else number in
  let number := if number >? 7 then 7 else number in
  self <- self_client ;;
  post account_setBestsCount
    (JObj [ ("num_best_friends", JNum (js_bitor number 0));
            ("username", username self) ])
    (fun r =>
       if truthy (err r) then call cb [err r]
       else
         let result := tryParseJSON (body r) in
         if truthy result then
           best <- get_prop result "best_friends" ;;
           set_bestFriendUsernames best ;;;
           call cb [JNull]
         else call cb [JStr parse_error]).

(** [Account.prototype.updateSnapPrivacy] (lines 61-72). *)
Definition updateSnapPrivacy (privacy : Z) (cb : value) : Js unit :=
  let privacy := js_bitor (Math_min privacy 1) 0 in
  self <- self_client ;;
  post account_settings
    (JObj [ ("action", JStr "updatePrivacy");
            ("privacySetting", JNum privacy);
            ("username", username self) ])
    (forward cb).

(** [Account.prototype.updateStoryPrivacy] (lines 81-101).  A call with two
    arguments has [undefined] as [cb]. *)
Definition updateStoryPrivacy (privacy : Z) (friends cb : value) : Js unit :=
  let '(friends, cb) :=
    if is_function friends then (JNull, friends) else (friends, cb) in
  self <- self_client ;;
  let params :=
    [ ("action", JStr "updateStoryPrivacy");
      ("privacySetting", stringFromStoryPrivacy (js_bitor privacy 0));
      ("username", username self) ] in
  let params :=
    if truthy friends
    then obj_set "storyFriendsToBlock" (JSON_stringify friends) params
    else params in
  post account_settings (JObj params) (forward cb).

(** [Account.prototype.updateEmail] (lines 109-118). *)
Definition updateEmail (address cb : value) : Js unit :=
  self <- self_client ;;
  post account_settings
    (JObj [ ("action", JStr "updateEmail");
            ("email", address);
            ("username", username self) ])
    (forward cb).

(** [Account.prototype.updateSearchableByNumber] (lines 126-135). *)
Definition updateSearchableByNumber (searchable cb : value) : Js unit :=
  self <- self_client ;;
  post account_settings
    (JObj [ ("action", JStr "updateSearchableByPhoneNumber");
            ("searchable", JBool (negb (negb (truthy searchable))));
            ("username", username self) ])
    (forward cb).

(** [Account.prototype.updateNotificationSoundSetting] (lines 143-152). *)
Definition updateNotificationSoundSetting (enableSound cb : value) : Js unit :=
  self <- self_client ;;
  post account_settings
    (JObj [ ("action", JStr "updateNotificationSoundSetting");
            ("notificationSoundSetting",
             if truthy enableSound then JStr "ON" else JStr "OFF");
            ("username", username self) ])
    (forward cb).

(** One line [features[key] = settings[key] || cached]. *)
Definition merge_feature (settings : value) (key : string) (cached : value)
           (features : list (string * value)) : Js (list (string * value)) :=
  requested <- get_prop settings key ;;
  ret (obj_set key (js_or requested cached) features).

(** [Account.prototype.updateFeatureSettings] (lines 177-195). *)
Definition updateFeatureSettings (settings cb : value) : Js unit :=
  self <- self_client ;;
  let session := currentSession self in
  let features := [] in
  features <- merge_feature settings (frontFacingFlash featureSettings)
                (enableFrontFacingFlash session) features ;;
  features <- merge_feature settings (replaySnaps featureSettings)
                (enableReplaySnaps session) features ;;
  features <- merge_feature settings (smartFilters featureSettings)
                (enableSmartFilters session) features ;;
  features <- merge_feature settings (visualFilters featureSettings)
                (enableVisualFilters session) features ;;
  features <- merge_feature settings (powerSaveMode featureSettings)
                (enablePowerSaveMode session) features ;;
  features <- merge_feature settings (specialText featureSettings)
                (enableSpecialText session) features ;;
  features <- merge_feature settings (swipeCashMode featureSettings)
                (enableSwipeCashMode session) features ;;
  features <- merge_feature settings (travelMode featureSettings)
                (enableTravelMode session) features ;;
  post update_featureSettings
    (JObj [ ("settings", JSON_stringify (JObj features));
            ("username", username self) ])
    (forward cb).

(** [Account.prototype.downloadSnaptag] (lines 202-217). *)
Definition downloadSnaptag (cb : value) : Js unit :=
  self <- self_client ;;
  post account_snaptag
    (JObj [ ("image", QRPath (currentSession self));
            ("type", JStr "SVG");
            ("username", username self) ])
    (fun r =>
       if truthy (err r) then call cb [err r]
       else
         buffer <- Buffer_new (body r) ;;
         call cb [JNull; SKBlob_new buffer]).

(** [Account.prototype.uploadAvatar] (lines 225-232). *)
Definition uploadAvatar (images cb : value) : Js unit :=
  throw (Error "Account.uploadAvatar TODO").

(** [Account.prototype.downloadAvatar] (lines 240-255). *)
Definition downloadAvatar (username_image cb : value) : Js unit :=
  self <- self_client ;;
  post account_avatar_get
    (JObj [ ("username_image", username_image);
            ("username", username self);
            ("size", JStr "MEDIUM") ])
    (fun r =>
       if truthy (err r) then call cb [err r]
       else
         buffer <- Buffer_new (body r) ;;
         SKBlob_decompress buffer cb).

(** [Account.prototype.updateTOSAgreementStatus] (lines 262-276). *)
Definition updateTOSAgreementStatus (snapcash snapcashV2 square cb : value)
  : Js unit :=
  self <- self_client ;;
  let agreements :=
    JObj [ ("snapcash_new_tos_accepted",
            if truthy snapcash then JStr "true" else JStr "false");
           ("snapcash_tos_v2_accepted",
            if truthy snapcashV2 then JStr "true" else JStr "false");
           ("square_tos_accepted",
            if truthy square then JStr "true" else JStr "false") ] in
  post update_user
    (JObj [ ("username", username self); ("agreements", agreements) ])
    (forward cb).

End Account.

(** ** A JSON reader, to run the operations on concrete bodies *)

Definition is_ws (c : ascii) : bool :=
  let n := nat_of_ascii c in
  ((n =? 32) || (n =? 9) || (n =? 10) || (n =? 13))%nat.

Fixpoint skip_ws (s : string) : string :=
  match s with
  | String c r => if is_ws c then skip_ws r else s
  | EmptyString => s
  end.

Definition digit_value (c : ascii) : Z := Z.of_nat (nat_of_ascii c - 48).

Fixpoint read_digits (s : string) (acc : Z) : Z * string :=
  match s with
  | String c r => if is_digit c then read_digits r (10 * acc + digit_value c) else (acc, s)
  | EmptyString => (acc, s)
  end.

Definition starts_fraction (s : string) : bool :=
  match s with
  | String c _ =>
      let n := nat_of_ascii c in ((n =? 46) || (n =? 101) || (n =? 69))%nat
  | EmptyString => false
  end.

(** The digits of a JSON number without sign: [0], or a non-zero digit
    followed by digits.  A fraction or an exponent is refused: the numbers of
    this model are the integers. *)
Definition read_natural (s : string) : option (Z * string) :=
  match s with
  | String c r =>
      if is_digit c then
        let '(n, rest) :=
          if (nat_of_ascii c =? 48)%nat then (0, r) else read_digits s 0 in
        match rest with
        | String d _ =>
            if is_digit d || starts_fraction rest then None else Some (n, rest)
        | EmptyString => Some (n, rest)
        end
      else None
  | EmptyString => None
  end.

Definition hex_value (c : ascii) : option Z :=
  let n := Z.of_nat (nat_of_ascii c) in
  if is_digit c then Some (n - 48)
  else if (97 <=? n) && (n <=? 102) then Some (n - 87)
  else if (65 <=? n) && (n <=? 70) then Some (n - 55)
  else None.

(** UTF-8 bytes of a code point of the Basic Multilingual Plane; surrogate
    halves have no encoding of their own and are refused. *)
Definition utf8 (cp : Z) : option string :=
  let byte n := String (ascii_of_nat (Z.to_nat n)) EmptyString in
  if cp <? 128 then Some (byte cp)
  else if cp <? 2048 then Some (byte (192 + cp / 64) ++ byte (128 + cp mod 64))
  else if (55296 <=? cp) && (cp <=? 57343) then None
  else Some (byte (224 + cp / 4096) ++ byte (128 + (cp / 64) mod 64)
                  ++ byte (128 + cp mod 64)).

Definition simple_escape (c : ascii) : option ascii :=
  let n := nat_of_ascii c in
  if ((n =? 34) || (n =? 92) || (n =? 47))%nat then Some c
  else if (n =? 98)%nat then Some (ascii_of_nat 8)
  else if (n =? 102)%nat then Some (ascii_of_nat 12)
  else if (n =? 110)%nat then Some (ascii_of_nat 10)
  else if (n =? 114)%nat then Some (ascii_of_nat 13)
  else if (n =? 116)%nat then Some (ascii_of_nat 9)
  else None.

(** The characters of a JSON string after its opening quote, up to and
    including the closing one. *)
Fixpoint read_string (s : string) : option (string * string) :=
  match s with
  | EmptyString => None
  | String c r =>
      let n := nat_of_ascii c in
      if (n =? 34)%nat then Some (EmptyString, r)
      else if (n <? 32)%nat then None
      else if (n =? 92)%nat then
        match r with
        | String e r' =>
            match simple_escape e with
            | Some ch =>
                match read_string r' with
                | Some (t, rest) => Some (String ch t, rest)
                | None => None
                end
            | None =>
                if (nat_of_ascii e =? 117)%nat then
                  match r' with
                  | String h1 (String h2 (String h3 (String h4 r''))) =>
                      match hex_value h1, hex_value h2, hex_value h3, hex_value h4 with
                      | Some a, Some b, Some c', Some d =>
                          match utf8 (a * 4096 + b * 256 + c' * 16 + d),
                                read_string r'' with
                          | Some bytes, Some (t, rest) => Some (bytes ++ t, rest)
                          | _, _ => None
                          end
                      | _, _, _, _ => None
                      end
                  | _ => None
                  end
                else None
            end
        | EmptyString => None
        end
      else
        match read_string r with
        | Some (t, rest) => Some (String c t, rest)
        | None => None
        end
  end.

Definition expect (word : string) (v : value) (s : string) : option (value * string) :=
  if String.prefix word s
  then Some (v, String.substring (String.length word)
                                 (String.length s - String.length word) s)
  else None.

Fixpoint parse_value (fuel : nat) (s : string) : option (value * string) :=
  match fuel with
  | O => None
  | S fuel' =>
      match skip_ws s with
      | EmptyString => None
      | String c r =>
          let n := nat_of_ascii c in
          if (n =? 110)%nat then expect "null" JNull (String c r)
          else if (n =? 116)%nat then expect "true" (JBool true) (String c r)
          else if (n =? 102)%nat then expect "false" (JBool false) (String c r)
          else if (n =? 34)%nat then
            match read_string r with
            | Some (t, rest) => Some (JStr t, rest)
            | None => None
            end
          else if (n =? 45)%nat then
            match read_natural r with
            | Some (m, rest) => Some (JNum (- m), rest)
            | None => None
            end
          else if is_digit c then
            match read_natural (String c r) with
            | Some (m, rest) => Some (JNum m, rest)
            | None => None
            end
          else if (n =? 91)%nat then
            match skip_ws r with
            | String c' r' =>
                if (nat_of_ascii c' =? 93)%nat then Some (JArr [], r')
                else parse_elements fuel' r []
            | EmptyString => None
            end
          else if (n =? 123)%nat then
            match skip_ws r with
            | String c' r' =>
                if (nat_of_ascii c' =? 125)%nat then Some (JObj [], r')
                else parse_members fuel' r []
            | EmptyString => None
            end
          else None
      end
  end
with parse_elements (fuel : nat) (s : string) (acc : list value)
  : option (value * string) :=
  match fuel with
  | O => None
  | S fuel' =>
      match parse_value fuel' s with
      | Some (v, rest) =>
          match skip_ws rest with
          | String c r =>
              if (nat_of_ascii c =? 44)%nat then parse_elements fuel' r (v :: acc)
              else if (nat_of_ascii c =? 93)%nat then Some (JArr (rev (v :: acc)), r)
              else None
          | EmptyString => None
          end
      | None => None
      end
  end
with parse_members (fuel : nat) (s : string) (acc : list (string * value))
  : option (value * string) :=
  match fuel with
  | O => None
  | S fuel' =>
      match skip_ws s with
      | String q r =>
          if (nat_of_ascii q =? 34)%nat then
            match read_string r with
            | Some (key, rest) =>
                match skip_ws rest with
                | String colon rest' =>
                    if (nat_of_ascii colon =? 58)%nat then
                      match parse_value fuel' rest' with
                      | Some (v, rest'') =>
                          match skip_ws rest'' with
                          | String c r' =>
                              if (nat_of_ascii c =? 44)%nat
                              then parse_members fuel' r' (obj_set key v acc)
                              else if (nat_of_ascii c =? 125)%nat
                              then Some (JObj (obj_set key v acc), r')
                              else None
                          | EmptyString => None
                          end
                      | None => None
                      end
                    else None
                | EmptyString => None
                end
            | None => None
            end
          else None
      | EmptyString => None
      end
  end.

(** [JSON.parse] of a text: one value, then only white space. *)
Definition JSON_parse (text : string) : option value :=
  match parse_value (2 * String.length text + 2) text with
  | Some (v, rest) =>
      match skip_ws rest with
      | EmptyString => Some v
      | String _ _ => None
      end
  | None => None
  end.

(** Modelled from the spec: [StringUtils.tryParseJSON] of lib/string-utils,
    which is not among the sources.  The spec has the body "parsed as JSON",
    and the caller tests the result for truthiness: the parsed value when
    the body is JSON text, [null] otherwise. *)
Definition StringUtils_tryParseJSON (input : value) : value :=
  match input with
  | JStr text | JBuffer text =>
      match JSON_parse text with
      | Some v => v
      | None => JNull
      end
  | JNum n => JNum n
  | JBool b => JBool b
  | _ => JNull
  end.

(** JSON texts are written below with apostrophes where JSON has double
    quotes. *)
Fixpoint json_text (s : string) : string :=
  match s with
  | EmptyString => EmptyString
  | String c r =>
      String (if (nat_of_ascii c =? 39)%nat then ascii_of_nat 34 else c) (json_text r)
  end.

(** ** Vocabulary of the statements *)

(** The requests a trace holds, in order. *)
Fixpoint requests (t : list Event) : list (Endpoint * value) :=
  match t with
  | [] => []
  | EvPost path params :: rest => (path, params) :: requests rest
  | _ :: rest => requests rest
  end.

(** A parameter of an outgoing parameter mapping; [None] when it is absent. *)
Definition param (k : string) (params : value) : option value :=
  match params with
  | JObj props => assoc k props
  | _ => None
  end.

(** The names of an outgoing parameter mapping. *)
Definition param_names (params : value) : list string :=
  match params with
  | JObj props => map fst props
  | _ => []
  end.

(** The bytes of a response body. *)
Definition body_bytes (v : value) : option string :=
  match v with
  | JStr s => Some s
  | JBuffer bytes => Some bytes
  | _ => None
  end.

Definition is_boolean (v : value) : bool :=
  match v with JBool _ => true | _ => false end.

(** What a caller asks for a flag: the boolean stored under the name, and
    [false] when the name is not mentioned. *)
Definition requested (props : list (string * value)) (k : string) : bool :=
  match assoc k props with
  | Some v => truthy v
  | None => false
  end.

(** A request mentions a recognized name with a boolean or not at all. *)
Definition flag_request (fs : FeatureSettings) (props : list (string * value)) : bool :=
  forallb (fun k => match assoc k props with
                    | Some v => is_boolean v
                    | None => true
                    end) (feature_names fs).

(** The merge as the spec words it: for each recognized name, in order, the
    requested value OR the cached one. *)
Definition merged_flags (fs : FeatureSettings) (props : list (string * value))
           (s : Session) : list (string * value) :=
  map (fun kc => (fst kc, JBool (requested props (fst kc) || truthy (snd kc))))
      (combine (feature_names fs) (cached_flags s)).

(** One flag in JSON text: the quoted name, a colon, [true] or [false]. *)
Definition flag_entry (kv : string * value) : string :=
  Quote (fst kv) ++ ":" ++ (if truthy (snd kv) then "true" else "false").

(** The JSON text of an object of flags, written out. *)
Definition flags_text (flags : list (string * value)) : string :=
  "{" ++ String.concat "," (map flag_entry flags) ++ "}".

(** The JSON text of an array of strings, written out. *)
Definition names_text (names : list string) : string :=
  "[" ++ String.concat "," (map Quote names) ++ "]".

(** The count [updateBestFriendsCount] puts on the wire: the two guards,
    then [| 0]. *)
Definition clamped_count (number : Z) : Z :=
  let number := if number <? 3 then 3 else number in
  let number := if number >? 7 then 7 else number in
  js_bitor number 0.

(** The parameters [updateBestFriendsCount] sends for a given count. *)
Definition setBestsCount_params (c : Client) (sent : Z) : value :=
  JObj [ ("num_best_friends", JNum sent); ("username", username c) ].

(** The parameters every call of [updateStoryPrivacy] sends, before the
    optional block list. *)
Definition story_params (label : Z -> value) (privacy : Z) (c : Client)
  : list (string * value) :=
  [ ("action", JStr "updateStoryPrivacy");
    ("privacySetting", label (ToInt32 privacy));
    ("username", username c) ].

(** ** Sample collaborators, to run the operations *)

(** A transport that answers every request with the same reply. *)
Definition canned (r : Reply) : Endpoint -> value -> Reply := fun _ _ => r.

Definition sample_stringFromStoryPrivacy (privacy : Z) : value :=
  if privacy =? 0 then JStr "EVERYONE"
  else if privacy =? 1 then JStr "FRIENDS"
  else if privacy =? 2 then JStr "CUSTOM"
  else JUndefined.

Definition sample_featureSettings : FeatureSettings :=
  mkFeatureSettings "front_facing_flash" "replay_snaps" "smart_filters"
                    "visual_filters" "power_save_mode" "special_text"
                    "swipe_cash_mode" "travel_mode".

Definition sample_SKBlob_new (buffer : value) : value := JObj [("_data", buffer)].

Definition sample_decompress_result (data : value) : list value :=
  [JNull; JObj [("_data", data); ("decompressed", JBool true)]].

Definition sample_session : Session :=
  mkSession (JArr [JStr "a"; JStr "b"; JStr "c"])
            (JBool true) (JBool false) (JBool false) (JBool false)
            (JBool false) (JBool false) (JBool false) (JBool false)
            (JStr "/qr/teamsnapchat").

Definition sample_client : Client := mkClient (JStr "teamsnapchat") sample_session.

Definition sample_world : World := mkWorld sample_client [].

Definition sample_response : value := JObj [("statusCode", JNum 200)].

(** Replies of a transport that succeeded, with the given body. *)
Definition ok_reply (body : value) : Reply := mkReply JNull sample_response body.

(** A request that asks to switch off a cached flag, switches another one
    on and carries a key that is no feature. *)
Definition sample_request : list (string * value) :=
  [ ("replay_snaps", JBool true);
    ("front_facing_flash", JBool false);
    ("night_vision", JBool true) ].

(** A reply of a transport that failed. *)
Definition failed_reply : Reply := mkReply (JStr "ETIMEDOUT") JUndefined JUndefined.

(** A client whose session has only the first flag set. *)
Definition fresh_session : Session :=
  mkSession (JArr []) (JBool true) JUndefined JUndefined JUndefined
            JUndefined JUndefined JUndefined JUndefined (JStr "/qr/teamsnapchat").

Definition fresh_world : World := mkWorld (mkClient (JStr "teamsnapchat") fresh_session) [].

(** ** Vocabulary of the further statements *)

(** [o[k]] on the own properties of a plain object: the value stored under
    [k], [undefined] when there is none. *)
Definition own (props : list (string * value)) (k : string) : value :=
  match assoc k props with
  | Some v => v
  | None => JUndefined
  end.

(** The merge on arbitrary values: for each recognized name, in order,
    [settings[name] || cached]. *)
Definition merged_values (fs : FeatureSettings) (props : list (string * value))
           (s : Session) : list (string * value) :=
  map (fun kc => (fst kc, js_or (own props (fst kc)) (snd kc)))
      (combine (feature_names fs) (cached_flags s)).

Definition is_undefined (v : value) : bool :=
  match v with JUndefined => true | _ => false end.

(** A cached flag that is set (a boolean) or not set at all. *)
Definition flag_or_unset (v : value) : bool := is_boolean v || is_undefined v.

(** A flag JSON.stringify writes: one that holds a boolean. *)
Definition sendable (kv : string * value) : bool := is_boolean (snd kv).




(** [Account.prototype.updateDisplayName] (lines 161-166).  The operation
    [self.client.friends.updateDisplayNameForUser] belongs to the friends
    routes, which are not among the sources: it is the first parameter. *)
Definition updateDisplayName
           (updateDisplayNameForUser : value -> value -> value -> Js unit)
           (displayName cb : value) : Js unit :=
  self <- self_client ;;
  updateDisplayNameForUser (username self) displayName cb.

(** An operation that leaves the client, its session included, as it found
    it, however it ends. *)
Definition keeps_client {A : Type} (m : Js A) : Prop :=
  forall w : World, client (snd (m w)) = client w.

(** [result['best_friends']] as the operation reads it from a truthy parse
    result. *)
Definition read_best_friends (result : value) : value :=
  match get_own result "best_friends" with
  | Some best => best
  | None => JUndefined
  end.

(** The session with the cached list of best friends set aside. *)
Definition session_frame (s : Session) : list value :=
  cached_flags s ++ [QRPath s].

(** * Properties *)

Open Scope list_scope.

(** ** Integer coercion *)

Lemma ToInt32_range (n : Z) : - 2 ^ 31 <= ToInt32 n < 2 ^ 31.
Proof.
  unfold ToInt32.
  pose proof (Z.mod_pos_bound n (2 ^ 32) ltac:(lia)) as Hm.
  cbv zeta. destruct (Z.leb_spec (2 ^ 31) (n mod 2 ^ 32)); lia.
Qed.

Lemma ToInt32_small (n : Z) : - 2 ^ 31 <= n < 2 ^ 31 -> ToInt32 n = n.
Proof.
  intros Hn. unfold ToInt32. cbv zeta.
  destruct (Z_lt_le_dec n 0) as [Hneg | Hpos].
  - assert (Hmod : n mod 2 ^ 32 = n + 2 ^ 32).
    { symmetry. apply (Z.mod_unique n (2 ^ 32) (-1)); lia. }
    rewrite Hmod. destruct (Z.leb_spec (2 ^ 31) (n + 2 ^ 32)); lia.
  - rewrite Z.mod_small by lia.
    destruct (Z.leb_spec (2 ^ 31) n); lia.
Qed.

Lemma js_bitor_0 (n : Z) : js_bitor n 0 = ToInt32 n.
Proof.
  unfold js_bitor.
  replace (ToInt32 0) with 0 by reflexivity.
  rewrite Z.lor_0_r. apply ToInt32_small, ToInt32_range.
Qed.

(** ** Traces *)

Lemma requests_app (t u : list Event) : requests (t ++ u) = requests t ++ requests u.
Proof.
  induction t as [| e t IH]; simpl; [reflexivity |].
  destruct e; simpl; rewrite IH; reflexivity.
Qed.

(** ** Plain objects *)

Lemma obj_set_fresh (k : string) (v : value) (props : list (string * value)) :
  ~ In k (map fst props) -> obj_set k v props = props ++ [(k, v)].
Proof.
  induction props as [| [k' v'] rest IH]; simpl; intros Hfresh; [reflexivity |].
  destruct (String.eqb_spec k k') as [-> | Hne].
  - exfalso. apply Hfresh. left. reflexivity.
  - rewrite IH; [reflexivity |]. intros Hin. apply Hfresh. right. exact Hin.
Qed.

(** ** JSON texts read back *)

Section JsonTexts.

Local Open Scope string_scope.

Lemma string_append_assoc (a b c : string) : (a ++ b) ++ c = a ++ (b ++ c).
Proof. induction a as [| x a IH]; simpl; [reflexivity | rewrite IH; reflexivity]. Qed.

Lemma string_length_append (a b : string) :
  String.length (a ++ b) = (String.length a + String.length b)%nat.
Proof. induction a as [| x a IH]; simpl; [reflexivity | rewrite IH; reflexivity]. Qed.

(** Reading back a quoted string gives the string: every escape [Quote]
    writes is one the reader undoes. *)
Lemma read_string_quoted (s rest : string) :
  read_string (quote_chars s ++ dquote ++ rest) = Some (s, rest).
Proof.
  induction s as [| c s IH]; [reflexivity |].
  cbn [quote_chars]. rewrite string_append_assoc.
  generalize dependent (quote_chars s ++ dquote ++ rest). intros tail IH.
  destruct c as [[] [] [] [] [] [] [] []];
    (match goal with
     | |- context [quote_char ?c] =>
         let q := eval vm_compute in (quote_char c) in
         change (quote_char c) with q
     end;
     simpl; rewrite IH; reflexivity).
Qed.

Lemma parse_value_quoted (fuel : nat) (s rest : string) :
  parse_value (S fuel) (Quote s ++ rest) = Some (JStr s, rest).
Proof.
  unfold Quote. rewrite !string_append_assoc.
  pose proof (read_string_quoted s rest) as Hread.
  generalize dependent (quote_chars s ++ dquote ++ rest). intros tail Hread.
  simpl. rewrite Hread. reflexivity.
Qed.

Lemma parse_elements_step (fuel : nat) (s : string) (acc : list value) :
  parse_elements (S fuel) s acc
  = match parse_value fuel s with
    | Some (v, rest) =>
        match skip_ws rest with
        | String c r =>
            if (nat_of_ascii c =? 44)%nat then parse_elements fuel r (v :: acc)
            else if (nat_of_ascii c =? 93)%nat then Some (JArr (rev (v :: acc)), r)
            else None
        | EmptyString => None
        end
    | None => None
    end.
Proof. reflexivity. Qed.

Lemma parse_elements_names (names : list string) :
  forall (acc : list value) (fuel : nat) (rest : string),
    names <> [] ->
    (List.length names < fuel)%nat ->
    parse_elements fuel (String.concat "," (map Quote names) ++ "]" ++ rest) acc
    = Some (JArr (rev acc ++ map JStr names), rest).
Proof.
  induction names as [| name names IH]; intros acc fuel rest Hne Hfuel;
    [contradiction |].
  destruct fuel as [| [| fuel]]; simpl in Hfuel; try lia.
  rewrite parse_elements_step.
  destruct names as [| next names].
  - cbn [map String.concat]. rewrite parse_value_quoted. reflexivity.
  - change (String.concat "," (map Quote (name :: next :: names)))
      with (Quote name ++ "," ++ String.concat "," (map Quote (next :: names))).
    rewrite !string_append_assoc. rewrite parse_value_quoted.
    change (skip_ws ("," ++ ?x)) with (String "," x).
    cbn [skip_ws].
    change (nat_of_ascii "," =? 44)%nat with true. cbv iota.
    rewrite IH by (simpl in *; try discriminate; lia).
    cbn [rev map]. rewrite <- app_assoc. reflexivity.
Qed.

Lemma length_names_text (names : list string) :
  (List.length names <= String.length (String.concat "," (map Quote names)))%nat.
Proof.
  induction names as [| name names IH]; [simpl; lia |].
  destruct names as [| next names]; [simpl; lia |].
  change (String.concat "," (map Quote (name :: next :: names)))
    with (Quote name ++ "," ++ String.concat "," (map Quote (next :: names))).
  rewrite !string_length_append. simpl in *. lia.
Qed.

(** The JSON text of a list of names reads back as the array of these
    names, in the same order. *)
Lemma JSON_parse_names (names : list string) :
  JSON_parse (names_text names) = Some (JArr (map JStr names)).
Proof.
  unfold JSON_parse, names_text.
  destruct names as [| name names]; [reflexivity |].
  pose proof (length_names_text (name :: names)) as Hlen.
  rewrite !string_length_append.
  remember (String.concat "," (map Quote (name :: names))) as text eqn:Htext.
  change (String.length "[") with 1%nat. change (String.length "]") with 1%nat.
  replace (2 * (1 + (String.length text + 1)) + 2)%nat
    with (S (S (2 * String.length text + 4)))%nat by lia.
  assert (Hhead : exists r, text = String (ascii_of_nat 34) r).
  { subst text. destruct names; unfold Quote, dquote; simpl; eexists; reflexivity. }
  destruct Hhead as [r Hhead].
  assert (Hvalue : parse_value (S (S (2 * String.length text + 4))) ("[" ++ text ++ "]")
                   = parse_elements (S (2 * String.length text + 4)) (text ++ "]" ++ "") []).
  { rewrite Hhead. reflexivity. }
  rewrite Hvalue. subst text.
  rewrite parse_elements_names by (simpl in *; try discriminate; lia).
  reflexivity.
Qed.

Lemma substring_all (s : string) : String.substring 0 (String.length s) s = s.
Proof. induction s as [| c s IH]; simpl; [reflexivity | rewrite IH; reflexivity]. Qed.

Lemma parse_value_boolean (fuel : nat) (b : bool) (rest : string) :
  parse_value (S fuel) ((if b then "true" else "false") ++ rest) = Some (JBool b, rest).
Proof.
  destruct b; simpl; unfold expect; simpl;
    rewrite Nat.sub_0_r, substring_all; destruct rest; reflexivity.
Qed.

Lemma parse_members_flag (fuel : nat) (k : string) (b : bool) (rest : string)
      (acc : list (string * value)) :
  parse_members (S (S fuel)) (Quote k ++ ":" ++ (if b then "true" else "false") ++ rest) acc
  = match skip_ws rest with
    | String c r =>
        if (nat_of_ascii c =? 44)%nat
        then parse_members (S fuel) r (obj_set k (JBool b) acc)
        else if (nat_of_ascii c =? 125)%nat
             then Some (JObj (obj_set k (JBool b) acc), r)
             else None
    | EmptyString => None
    end.
Proof.
  unfold Quote. rewrite !string_append_assoc.
  pose proof (read_string_quoted k (":" ++ (if b then "true" else "false") ++ rest))
    as Hread.
  pose proof (parse_value_boolean fuel b rest) as Hvalue.
  generalize dependent ((if b then "true" else "false") ++ rest). intros after.
  intros Hread Hvalue.
  generalize dependent (quote_chars k ++ dquote ++ ":" ++ after). intros tail Hread.
  change (parse_members (S (S fuel)) (dquote ++ tail) acc)
    with (match read_string tail with
          | Some (key, rest0) =>
              match skip_ws rest0 with
              | String colon rest' =>
                  if (nat_of_ascii colon =? 58)%nat then
                    match parse_value (S fuel) rest' with
                    | Some (v, rest'') =>
                        match skip_ws rest'' with
                        | String c r' =>
                            if (nat_of_ascii c =? 44)%nat
                            then parse_members (S fuel) r' (obj_set key v acc)
                            else if (nat_of_ascii c =? 125)%nat
                                 then Some (JObj (obj_set key v acc), r')
                                 else None
                        | EmptyString => None
                        end
                    | None => None
                    end
                  else None
              | EmptyString => None
              end
          | None => None
          end).
  rewrite Hread.
  change (skip_ws (":" ++ after)) with (String ":" after).
  change (nat_of_ascii ":" =? 58)%nat with true. cbv iota.
  rewrite Hvalue. reflexivity.
Qed.

Lemma parse_members_flags (flags : list (string * value)) :
  forall (acc : list (string * value)) (fuel : nat) (rest : string),
    flags <> [] ->
    forallb (fun kv => is_boolean (snd kv)) flags = true ->
    NoDup (map fst (acc ++ flags)%list) ->
    (List.length flags < fuel)%nat ->
    parse_members fuel (String.concat "," (map flag_entry flags) ++ "}" ++ rest) acc
    = Some (JObj (acc ++ flags)%list, rest).
Proof.
  induction flags as [| [k v] flags IH]; intros acc fuel rest Hne Hbool Hnd Hfuel;
    [contradiction |].
  destruct fuel as [| [| fuel]]; simpl in Hfuel; try lia.
  simpl in Hbool. apply andb_true_iff in Hbool. destruct Hbool as [Hv Hbool].
  destruct v as [| | b | | | | | |]; try discriminate Hv.
  assert (Hfresh : obj_set k (JBool b) acc = (acc ++ [(k, JBool b)])%list).
  { apply obj_set_fresh. rewrite map_app in Hnd. simpl in Hnd.
    apply NoDup_remove_2 in Hnd. intros Hin. apply Hnd.
    apply in_or_app. left. exact Hin. }
  destruct flags as [| next flags].
  - cbn [map String.concat]. unfold flag_entry. cbn [fst snd truthy].
    rewrite !string_append_assoc. rewrite parse_members_flag.
    change (skip_ws ("}" ++ rest)) with (String "}" rest).
    change (nat_of_ascii "}" =? 44)%nat with false.
    change (nat_of_ascii "}" =? 125)%nat with true. cbv iota.
    rewrite Hfresh. reflexivity.
  - change (String.concat "," (map flag_entry ((k, JBool b) :: next :: flags)))
      with (flag_entry (k, JBool b) ++ "," ++ String.concat "," (map flag_entry (next :: flags))).
    unfold flag_entry at 1. cbn [fst snd truthy].
    rewrite !string_append_assoc. rewrite parse_members_flag.
    change (skip_ws ("," ++ ?x)) with (String "," x).
    cbn [skip_ws].
    change (nat_of_ascii "," =? 44)%nat with true. cbv iota.
    rewrite Hfresh.
    rewrite IH.
    + rewrite <- app_assoc. reflexivity.
    + discriminate.
    + exact Hbool.
    + rewrite <- app_assoc. exact Hnd.
    + simpl in *. lia.
Qed.

Lemma length_flags_text (flags : list (string * value)) :
  (List.length flags <= String.length (String.concat "," (map flag_entry flags)))%nat.
Proof.
  induction flags as [| kv flags IH]; [simpl; lia |].
  destruct flags as [| next flags]; [simpl; lia |].
  change (String.concat "," (map flag_entry (kv :: next :: flags)))
    with (flag_entry kv ++ "," ++ String.concat "," (map flag_entry (next :: flags))).
  rewrite !string_length_append. simpl in *. lia.
Qed.

(** The JSON text of an object of flags with distinct names reads back as
    that object: these names, in this order, with these values. *)
Lemma JSON_parse_flags (flags : list (string * value)) :
  forallb (fun kv => is_boolean (snd kv)) flags = true ->
  NoDup (map fst flags) ->
  JSON_parse (flags_text flags) = Some (JObj flags).
Proof.
  intros Hbool Hnd. unfold JSON_parse, flags_text.
  destruct flags as [| kv flags]; [reflexivity |].
  pose proof (length_flags_text (kv :: flags)) as Hlen.
  pose proof (parse_members_flags (kv :: flags) []) as Hmembers.
  rewrite !string_length_append.
  remember (String.concat "," (map flag_entry (kv :: flags))) as text eqn:Htext.
  change (String.length "{") with 1%nat. change (String.length "}") with 1%nat.
  replace (2 * (1 + (String.length text + 1)) + 2)%nat
    with (S (S (2 * String.length text + 4)))%nat by lia.
  assert (Hhead : exists r, text = String (ascii_of_nat 34) r).
  { subst text. destruct flags; unfold flag_entry, Quote, dquote; simpl;
      eexists; reflexivity. }
  destruct Hhead as [r Hhead].
  assert (Hvalue : parse_value (S (S (2 * String.length text + 4))) ("{" ++ text ++ "}")
                   = parse_members (S (2 * String.length text + 4)) (text ++ "}" ++ "") []).
  { rewrite Hhead. reflexivity. }
  rewrite Hvalue.
  rewrite Hmembers; [reflexivity | discriminate | exact Hbool | exact Hnd |].
  simpl in *. lia.
Qed.

End JsonTexts.

Ltac run_op :=
  unfold post, forward, SKBlob_decompress, merge_feature, get_prop, call, bind,
    emit, self_client, set_bestFriendUsernames, Buffer_new, ret, throw;
  simpl.

Ltac tidy_trace :=
  repeat rewrite <- app_assoc; repeat rewrite requests_app; simpl;
  repeat rewrite app_nil_r.

Section AccountProperties.

Variable transport : Endpoint -> value -> Reply.
Variable tryParseJSON : value -> value.
Variable stringFromStoryPrivacy : Z -> value.
Variable featureSettings : FeatureSettings.
Variable SKBlob_new : value -> value.
Variable SKBlob_decompress_result : value -> list value.

(** *** updateBestFriendsCount *)

(** What a call does, case by case on the reply of the transport. *)
Lemma updateBestFriendsCount_run (number : Z) (id : nat) (w : World) :
  let params := setBestsCount_params (client w) (clamped_count number) in
  let r := transport account_setBestsCount params in
  let result := tryParseJSON (body r) in
  let posted := trace w ++ [EvPost account_setBestsCount params] in
  updateBestFriendsCount transport tryParseJSON number (JFun id) w
  = if truthy (err r) then
      (Normal tt, mkWorld (client w) (posted ++ [EvCall (JFun id) [err r]]))
    else if truthy result then
      (Normal tt,
       mkWorld (mkClient (username (client w))
                         (with_bestFriendUsernames
                            (match get_own result "best_friends" with
                             | Some best => best
                             | None => JUndefined
                             end)
                            (currentSession (client w))))
               (posted ++ [EvCall (JFun id) [JNull]]))
    else
      (Normal tt, mkWorld (client w) (posted ++ [EvCall (JFun id) [JStr parse_error]])).
Proof.
  unfold updateBestFriendsCount, setBestsCount_params, clamped_count. run_op.
  destruct (truthy (err _)); [reflexivity |].
  destruct (tryParseJSON _) as [| | b | n | s | items | props | f | bytes];
    simpl; try reflexivity.
  - destruct b; reflexivity.
  - destruct (n =? 0); reflexivity.
  - destruct (String.eqb s ""); reflexivity.
Qed.

Lemma clamped_count_spec (number : Z) :
  (number < 3 -> clamped_count number = 3)
  /\ (7 < number -> clamped_count number = 7)
  /\ (3 <= number <= 7 -> clamped_count number = number).
Proof.
  unfold clamped_count. cbv zeta. rewrite js_bitor_0.
  destruct (Z.ltb_spec number 3) as [Hlo | Hlo].
  - replace (3 >? 7) with false by reflexivity.
    rewrite ToInt32_small by lia. repeat split; lia.
  - destruct (Z.gtb_spec number 7) as [Hhi | Hhi];
      rewrite ToInt32_small by lia; repeat split; lia.
Qed.

(** The request goes out whatever [cb] is. *)
Lemma updateBestFriendsCount_request (number : Z) (cb : value) (w : World) :
  requests (trace (snd (updateBestFriendsCount transport tryParseJSON number cb w)))
  = requests (trace w)
    ++ [ (account_setBestsCount,
          setBestsCount_params (client w) (clamped_count number)) ].
Proof.
  unfold updateBestFriendsCount, setBestsCount_params, clamped_count. run_op.
  destruct (truthy (err _)); [| destruct (truthy (tryParseJSON _));
                                [destruct (get_own _ _) |] ];
    destruct (is_function cb); simpl; tidy_trace; reflexivity.
Qed.

(** C4: for every integer [number], the request of
    [updateBestFriendsCount] carries [num_best_friends] equal to 3 when
    [number < 3], to 7 when [number > 7] and to [number] itself when it
    lies in [3,7]; the coercion [| 0] changes none of these. *)
Theorem updateBestFriendsCount_sends_clamped (number : Z) (cb : value) (w : World) :
  exists sent : Z,
    requests (trace (snd (updateBestFriendsCount transport tryParseJSON number cb w)))
    = requests (trace w)
      ++ [ (account_setBestsCount, setBestsCount_params (client w) sent) ]
    /\ param "num_best_friends" (setBestsCount_params (client w) sent)
       = Some (JNum sent)
    /\ (number < 3 -> sent = 3)
    /\ (7 < number -> sent = 7)
    /\ (3 <= number <= 7 -> sent = number).
Proof.
  exists (clamped_count number).
  split; [apply updateBestFriendsCount_request |].
  split; [reflexivity | apply clamped_count_spec].
Qed.

(** C3 (amended): when the transport succeeds and the body does not parse
    (the parser yields a falsy value), [cb] receives the parse-error
    string, which is not what the transport reported, and the client is
    untouched; when the body parses to any truthy value, with or without
    a [best_friends] field, [cb] receives [null]: success. *)
Theorem updateBestFriendsCount_parse_failure (number : Z) (id : nat) (w : World) :
  let params := setBestsCount_params (client w) (clamped_count number) in
  let r := transport account_setBestsCount params in
  let out := updateBestFriendsCount transport tryParseJSON number (JFun id) w in
  truthy (err r) = false ->
  (truthy (tryParseJSON (body r)) = false ->
   out = (Normal tt,
          mkWorld (client w)
                  (trace w ++ [ EvPost account_setBestsCount params;
                                EvCall (JFun id) [JStr parse_error] ]))
   /\ JStr parse_error <> err r)
  /\ (truthy (tryParseJSON (body r)) = true ->
      fst out = Normal tt
      /\ trace (snd out)
         = trace w ++ [ EvPost account_setBestsCount params;
                        EvCall (JFun id) [JNull] ]).
Proof.
  intros params r out Herr. subst out.
  rewrite updateBestFriendsCount_run. fold params. fold r. rewrite Herr.
  split; intros Hparse; rewrite Hparse.
  - split; [rewrite <- app_assoc; reflexivity |].
    intros Heq. rewrite <- Heq in Herr. discriminate Herr.
  - simpl. rewrite <- app_assoc. split; reflexivity.
Qed.

(** C6 (amended): when the transport succeeds and the body parses to an
    object with a [best_friends] field, the cached [bestFriendUsernames]
    becomes that field, whatever count was asked for, and [cb] receives
    [null]; when the body does not parse (the parser yields a falsy value),
    [cb] receives the parse error and the client, its session included, is
    as before; when the body parses to a truthy value without a
    [best_friends] field, the call is a success all the same: [cb] receives
    [null] and the cached list becomes [undefined]. *)
Theorem updateBestFriendsCount_cache (number : Z) (id : nat) (w : World) :
  let params := setBestsCount_params (client w) (clamped_count number) in
  let r := transport account_setBestsCount params in
  let out := updateBestFriendsCount transport tryParseJSON number (JFun id) w in
  truthy (err r) = false ->
  (forall props best,
      tryParseJSON (body r) = JObj props ->
      assoc "best_friends" props = Some best ->
      fst out = Normal tt
      /\ bestFriendUsernames (currentSession (client (snd out))) = best
      /\ trace (snd out)
         = trace w ++ [ EvPost account_setBestsCount params;
                        EvCall (JFun id) [JNull] ])
  /\ (truthy (tryParseJSON (body r)) = false ->
      fst out = Normal tt
      /\ client (snd out) = client w
      /\ trace (snd out)
         = trace w ++ [ EvPost account_setBestsCount params;
                        EvCall (JFun id) [JStr parse_error] ])
  /\ (truthy (tryParseJSON (body r)) = true ->
      (forall props, tryParseJSON (body r) = JObj props ->
                     assoc "best_friends" props = None) ->
      fst out = Normal tt
      /\ bestFriendUsernames (currentSession (client (snd out))) = JUndefined
      /\ trace (snd out)
         = trace w ++ [ EvPost account_setBestsCount params;
                        EvCall (JFun id) [JNull] ]).
Proof.
  intros params r out Herr. subst out.
  rewrite updateBestFriendsCount_run. fold params. fold r. rewrite Herr.
  split; [| split].
  - intros props best Hobj Hfield. rewrite Hobj. simpl. rewrite Hfield.
    rewrite <- app_assoc. repeat split.
  - intros Hparse. rewrite Hparse. simpl. rewrite <- app_assoc. repeat split.
  - intros Htruthy Hfield. rewrite Htruthy. simpl. rewrite <- app_assoc.
    split; [reflexivity | split; [| reflexivity] ].
    destruct (tryParseJSON (body r)) as [| | b | n | s | items | props | f | bytes];
      try reflexivity; try discriminate Htruthy.
    simpl. rewrite (Hfield props eq_refl). reflexivity.
Qed.

(** *** updateSnapPrivacy *)

Lemma updateSnapPrivacy_request (privacy : Z) (cb : value) (w : World) :
  requests (trace (snd (updateSnapPrivacy transport privacy cb w)))
  = requests (trace w)
    ++ [ (account_settings,
          JObj [ ("action", JStr "updatePrivacy");
                 ("privacySetting", JNum (ToInt32 (Z.min privacy 1)));
                 ("username", username (client w)) ]) ].
Proof.
  unfold updateSnapPrivacy, Math_min. rewrite js_bitor_0. run_op.
  destruct (is_function cb); simpl; tidy_trace; reflexivity.
Qed.

(** C5 (amended): [updateSnapPrivacy] sends the signed 32-bit wrap of
    [min(privacy, 1)], which is never above the 32-bit range; for every
    integer [privacy] from [-2^31] up this is [min(privacy, 1)] itself,
    with no lower clamp. *)
Theorem updateSnapPrivacy_sends_min (privacy : Z) (cb : value) (w : World) :
  - 2 ^ 31 <= privacy ->
  exists sent : Z,
    requests (trace (snd (updateSnapPrivacy transport privacy cb w)))
    = requests (trace w)
      ++ [ (account_settings,
            JObj [ ("action", JStr "updatePrivacy");
                   ("privacySetting", JNum sent);
                   ("username", username (client w)) ]) ]
    /\ sent = Z.min privacy 1
    /\ sent <= 1
    /\ (privacy <= 1 -> sent = privacy).
Proof.
  intros Hrange. exists (ToInt32 (Z.min privacy 1)).
  split; [apply updateSnapPrivacy_request |].
  rewrite ToInt32_small by lia. lia.
Qed.

(** *** updateStoryPrivacy *)

Lemma updateStoryPrivacy_request (privacy : Z) (friends cb : value) (w : World) :
  is_function friends = false ->
  requests (trace (snd (updateStoryPrivacy transport stringFromStoryPrivacy
                          privacy friends cb w)))
  = requests (trace w)
    ++ [ (account_settings,
          JObj (story_params stringFromStoryPrivacy privacy (client w)
                ++ (if truthy friends
                    then [("storyFriendsToBlock", JSON_stringify friends)]
                    else []))) ].
Proof.
  intros Hfun. unfold updateStoryPrivacy, story_params. rewrite Hfun, js_bitor_0.
  run_op.
  destruct (truthy friends); simpl;
    destruct (is_function cb); simpl; tidy_trace; reflexivity.
Qed.

Lemma serialize_names (names : list string) :
  serialize (JArr (map JStr names)) = Some (names_text names).
Proof.
  unfold names_text. simpl. rewrite map_map. reflexivity.
Qed.

(** C8: with a list of usernames as block list, the request carries
    [storyFriendsToBlock], last, holding the JSON text of an array whose
    elements are the quoted usernames in the given order (read back, the
    text is the array of these usernames); with no block list
    ([undefined] or [null]) the request has the three fixed parameters and
    no [storyFriendsToBlock]. *)
Theorem updateStoryPrivacy_block_list (privacy : Z) (names : list string)
        (cb : value) (w : World) :
  (requests (trace (snd (updateStoryPrivacy transport stringFromStoryPrivacy
                           privacy (JArr (map JStr names)) cb w)))
   = requests (trace w)
     ++ [ (account_settings,
           JObj (story_params stringFromStoryPrivacy privacy (client w)
                 ++ [("storyFriendsToBlock", JStr (names_text names))])) ])
  /\ names_text names = ("[" ++ String.concat "," (map Quote names) ++ "]")%string
  /\ JSON_parse (names_text names) = Some (JArr (map JStr names))
  /\ (forall friends : value,
        friends = JUndefined \/ friends = JNull ->
        exists params : value,
          requests (trace (snd (updateStoryPrivacy transport stringFromStoryPrivacy
                                  privacy friends cb w)))
          = requests (trace w) ++ [(account_settings, params)]
          /\ param "storyFriendsToBlock" params = None
          /\ param_names params = ["action"; "privacySetting"; "username"]).
Proof.
  split; [| split; [reflexivity | split; [apply JSON_parse_names |] ] ].
  - rewrite updateStoryPrivacy_request by reflexivity.
    unfold JSON_stringify. rewrite serialize_names. reflexivity.
  - intros friends [-> | ->]; eexists;
      (split; [apply updateStoryPrivacy_request; reflexivity |]);
      split; reflexivity.
Qed.

(** C10: a function in second position is the completion callback: the
    call sends the three fixed parameters, the label being that of the
    level coerced by [| 0], sends no block list, and hands the reply of
    the transport to that function; whatever stands in third position is
    ignored, so [updateStoryPrivacy(level, f)] is
    [updateStoryPrivacy(level, null, f)]. *)
Theorem updateStoryPrivacy_callback_second (privacy : Z) (id : nat)
        (third : value) (w : World) :
  let params := JObj (story_params stringFromStoryPrivacy privacy (client w)) in
  let r := transport account_settings params in
  updateStoryPrivacy transport stringFromStoryPrivacy privacy (JFun id) third w
  = updateStoryPrivacy transport stringFromStoryPrivacy privacy JNull (JFun id) w
  /\ updateStoryPrivacy transport stringFromStoryPrivacy privacy (JFun id) third w
     = (Normal tt,
        mkWorld (client w)
                (trace w ++ [ EvPost account_settings params;
                              EvCall (JFun id) [err r; response r; body r] ]))
  /\ param "storyFriendsToBlock" params = None.
Proof.
  unfold updateStoryPrivacy, story_params. rewrite js_bitor_0. run_op.
  rewrite <- app_assoc. repeat split.
Qed.

(** *** The single-field setters *)

(** C9: [updateEmail], [updateSearchableByNumber],
    [updateNotificationSoundSetting] and [updateTOSAgreementStatus] each
    issue one request and hand the reply of the transport, unchanged, to
    [cb]; the client and its session are as before.  [searchable] is the
    boolean [!!searchable], the sound setting is ["ON"] for a truthy input
    and ["OFF"] otherwise, and the three agreements are the strings
    ["true"] or ["false"]. *)
Theorem setters_forward_reply (id : nat) (w : World) :
  let done (path : Endpoint) (params : value) :=
    let r := transport path params in
    (Normal tt,
     mkWorld (client w)
             (trace w ++ [ EvPost path params;
                           EvCall (JFun id) [err r; response r; body r] ])) in
  (forall address : value,
      updateEmail transport address (JFun id) w
      = done account_settings
             (JObj [ ("action", JStr "updateEmail");
                     ("email", address);
                     ("username", username (client w)) ]))
  /\ (forall searchable : value,
        updateSearchableByNumber transport searchable (JFun id) w
        = done account_settings
               (JObj [ ("action", JStr "updateSearchableByPhoneNumber");
                       ("searchable", JBool (truthy searchable));
                       ("username", username (client w)) ]))
  /\ (forall enableSound : value,
        updateNotificationSoundSetting transport enableSound (JFun id) w
        = done account_settings
               (JObj [ ("action", JStr "updateNotificationSoundSetting");
                       ("notificationSoundSetting",
                        JStr (if truthy enableSound then "ON" else "OFF"));
                       ("username", username (client w)) ]))
  /\ (forall snapcash snapcashV2 square : value,
        updateTOSAgreementStatus transport snapcash snapcashV2 square (JFun id) w
        = done update_user
               (JObj [ ("username", username (client w));
                       ("agreements",
                        JObj [ ("snapcash_new_tos_accepted",
                                JStr (if truthy snapcash then "true" else "false"));
                               ("snapcash_tos_v2_accepted",
                                JStr (if truthy snapcashV2 then "true" else "false"));
                               ("square_tos_accepted",
                                JStr (if truthy square then "true" else "false")) ]) ])).
Proof.
  cbv zeta. repeat split; intros.
  - unfold updateEmail. run_op. rewrite <- app_assoc. reflexivity.
  - unfold updateSearchableByNumber. run_op.
    rewrite negb_involutive, <- app_assoc. reflexivity.
  - unfold updateNotificationSoundSetting. run_op.
    destruct (truthy enableSound); rewrite <- app_assoc; reflexivity.
  - unfold updateTOSAgreementStatus. run_op.
    destruct (truthy snapcash), (truthy snapcashV2), (truthy square);
      rewrite <- app_assoc; reflexivity.
Qed.

(** *** downloadSnaptag, downloadAvatar, uploadAvatar *)

(** C7: when the transport succeeds with a body of bytes [bytes],
    [downloadSnaptag] hands [cb] a blob built from a Buffer holding
    exactly [bytes], and no decode step runs; [downloadAvatar] passes a
    Buffer holding [bytes] to the decode step, and [cb] receives what
    that step produces. *)
Theorem downloads_blob (username_image : value) (id : nat) (bytes : string)
        (w : World) :
  let snaptag_params :=
    JObj [ ("image", QRPath (currentSession (client w)));
           ("type", JStr "SVG");
           ("username", username (client w)) ] in
  let avatar_params :=
    JObj [ ("username_image", username_image);
           ("username", username (client w));
           ("size", JStr "MEDIUM") ] in
  (truthy (err (transport account_snaptag snaptag_params)) = false ->
   body_bytes (body (transport account_snaptag snaptag_params)) = Some bytes ->
   downloadSnaptag transport SKBlob_new (JFun id) w
   = (Normal tt,
      mkWorld (client w)
              (trace w ++ [ EvPost account_snaptag snaptag_params;
                            EvCall (JFun id) [JNull; SKBlob_new (JBuffer bytes)] ])))
  /\ (truthy (err (transport account_avatar_get avatar_params)) = false ->
      body_bytes (body (transport account_avatar_get avatar_params)) = Some bytes ->
      downloadAvatar transport SKBlob_decompress_result username_image (JFun id) w
      = (Normal tt,
         mkWorld (client w)
                 (trace w ++ [ EvPost account_avatar_get avatar_params;
                               EvDecompress (JBuffer bytes);
                               EvCall (JFun id)
                                      (SKBlob_decompress_result (JBuffer bytes)) ]))).
Proof.
  cbv zeta. split; intros Herr Hbody.
  - unfold downloadSnaptag. run_op. rewrite Herr.
    destruct (body _); try discriminate Hbody;
      injection Hbody as ->; simpl; rewrite <- app_assoc; reflexivity.
  - unfold downloadAvatar. run_op. rewrite Herr.
    destruct (body _); try discriminate Hbody;
      injection Hbody as ->; simpl; repeat rewrite <- app_assoc; reflexivity.
Qed.

(** C2 (amended): for every input, [uploadAvatar] throws the error
    "Account.uploadAvatar TODO" to its caller; the world is as before: no
    request is issued and [cb] is not called. *)
Theorem uploadAvatar_throws (images cb : value) (w : World) :
  uploadAvatar images cb w = (Throw (Error "Account.uploadAvatar TODO"), w)
  /\ requests (trace (snd (uploadAvatar images cb w))) = requests (trace w)
  /\ (forall args : list value,
        In (EvCall cb args) (trace (snd (uploadAvatar images cb w))) ->
        In (EvCall cb args) (trace w)).
Proof.
  unfold uploadAvatar, throw. simpl. repeat split. intros args Hin. exact Hin.
Qed.

End AccountProperties.

(** *** updateFeatureSettings *)

Lemma assoc_mapped (f : string * value -> value) (k : string) (c : value)
      (l : list (string * value)) :
  NoDup (map fst l) ->
  In (k, c) l ->
  assoc k (map (fun kc => (fst kc, f kc)) l) = Some (f (k, c)).
Proof.
  induction l as [| [k' c'] rest IH]; simpl; intros Hnd Hin; [contradiction |].
  inversion Hnd as [| ? ? Hfresh Hrest]; subst.
  destruct Hin as [Heq | Hin].
  - injection Heq as -> ->. rewrite String.eqb_refl. reflexivity.
  - destruct (String.eqb_spec k k') as [-> | Hne].
    + exfalso. apply Hfresh. apply (in_map fst) in Hin. exact Hin.
    + apply IH; assumption.
Qed.

(** One merged value: a boolean or absent request against a boolean cache
    is the OR of the two. *)
Lemma merged_value (props : list (string * value)) (k : string) (cached : value) :
  match assoc k props with Some v => is_boolean v | None => true end = true ->
  is_boolean cached = true ->
  js_or (match assoc k props with Some v => v | None => JUndefined end) cached
  = JBool (requested props k || truthy cached).
Proof.
  unfold requested, js_or. intros Hreq Hcached.
  destruct cached; try discriminate Hcached.
  destruct (assoc k props) as [v |]; [| reflexivity].
  destruct v; try discriminate Hreq. simpl.
  match goal with |- context [if ?b then _ else _] => destruct b end; reflexivity.
Qed.

Lemma flat_map_flags (flags : list (string * value)) :
  forallb (fun kv => is_boolean (snd kv)) flags = true ->
  flat_map (fun kv => match serialize (snd kv) with
                      | Some t => [(Quote (fst kv) ++ ":" ++ t)%string]
                      | None => []
                      end) flags
  = map flag_entry flags.
Proof.
  induction flags as [| [k v] rest IH]; cbn [flat_map map forallb];
    intros Hbool; [reflexivity |].
  apply andb_true_iff in Hbool. destruct Hbool as [Hv Hrest].
  rewrite IH by exact Hrest.
  destruct v; try discriminate Hv. reflexivity.
Qed.

Lemma serialize_flags (flags : list (string * value)) :
  forallb (fun kv => is_boolean (snd kv)) flags = true ->
  serialize (JObj flags) = Some (flags_text flags).
Proof.
  intros Hbool. unfold flags_text. rewrite <- flat_map_flags by exact Hbool.
  reflexivity.
Qed.

Lemma merged_flags_boolean (fs : FeatureSettings) (props : list (string * value))
      (s : Session) :
  forallb (fun kv => is_boolean (snd kv)) (merged_flags fs props s) = true.
Proof.
  unfold merged_flags. apply forallb_forall. intros kv Hin.
  apply in_map_iff in Hin. destruct Hin as [kc [<- _]]. reflexivity.
Qed.

Ltac split_andb :=
  repeat match goal with
         | H : (_ && _)%bool = true |- _ =>
             apply andb_true_iff in H; destruct H
         end.

Ltac fresh_keys :=
  repeat match goal with
         | H : NoDup (_ :: _) |- _ => inversion H; clear H; subst
         end;
  simpl in *;
  repeat (match goal with
          | |- context [String.eqb ?a ?b] =>
              replace (String.eqb a b) with false
                by (symmetry; apply String.eqb_neq; intuition congruence)
          end; simpl).

Section FeatureSettingsProperties.

Variable transport : Endpoint -> value -> Reply.
Variable featureSettings : FeatureSettings.

(** The eight assignments build the merged flags, in the order of the
    names. *)
Lemma updateFeatureSettings_run (props : list (string * value)) (id : nat)
      (w : World) :
  NoDup (feature_names featureSettings) ->
  flag_request featureSettings props = true ->
  forallb is_boolean (cached_flags (currentSession (client w))) = true ->
  let merged := merged_flags featureSettings props (currentSession (client w)) in
  let params :=
    JObj [ ("settings", JSON_stringify (JObj merged));
           ("username", username (client w)) ] in
  let r := transport update_featureSettings params in
  updateFeatureSettings transport featureSettings (JObj props) (JFun id) w
  = (Normal tt,
     mkWorld (client w)
             (trace w ++ [ EvPost update_featureSettings params;
                           EvCall (JFun id) [err r; response r; body r] ])).
Proof.
  destruct featureSettings as [k1 k2 k3 k4 k5 k6 k7 k8].
  destruct w as [[user [best c1 c2 c3 c4 c5 c6 c7 c8 qr]] t].
  unfold feature_names, flag_request, cached_flags, merged_flags.
  simpl. intros Hnd Hreq Hcached. split_andb.
  unfold updateFeatureSettings. run_op.
  rewrite !merged_value by assumption.
  fresh_keys. rewrite <- app_assoc. reflexivity.
Qed.

(** C1: for a request of flags (each recognized name given a boolean or left
    out, any other key allowed) against a cache of booleans, the [settings]
    parameter is the JSON text of an object with exactly the eight
    recognized names, in their order, each with the value requested OR
    cached (read back, the text is that object); a flag cached as [true] is
    sent as [true] whatever the request says.  The names are taken distinct
    and plain. *)
Theorem updateFeatureSettings_merges (props : list (string * value)) (id : nat)
        (w : World) :
  NoDup (feature_names featureSettings) ->
  forallb plain_key (feature_names featureSettings) = true ->
  flag_request featureSettings props = true ->
  forallb is_boolean (cached_flags (currentSession (client w))) = true ->
  let names := feature_names featureSettings in
  let cached := cached_flags (currentSession (client w)) in
  let merged := merged_flags featureSettings props (currentSession (client w)) in
  let params :=
    JObj [ ("settings", JStr (flags_text merged));
           ("username", username (client w)) ] in
  let r := transport update_featureSettings params in
  updateFeatureSettings transport featureSettings (JObj props) (JFun id) w
  = (Normal tt,
     mkWorld (client w)
             (trace w ++ [ EvPost update_featureSettings params;
                           EvCall (JFun id) [err r; response r; body r] ]))
  /\ JSON_stringify (JObj merged) = JStr (flags_text merged)
  /\ JSON_parse (flags_text merged) = Some (JObj merged)
  /\ map fst merged = names
  /\ List.length merged = 8%nat
  /\ (forall k c, In (k, c) (combine names cached) ->
                  assoc k merged = Some (JBool (requested props k || truthy c)))
  /\ (forall k, In (k, JBool true) (combine names cached) ->
                assoc k merged = Some (JBool true)).
Proof.
  intros Hnd Hplain Hreq Hcached names cached merged params r.
  assert (Htext : JSON_stringify (JObj merged) = JStr (flags_text merged)).
  { unfold JSON_stringify. rewrite serialize_flags; [reflexivity |].
    apply merged_flags_boolean. }
  assert (Hfst : map fst (combine names cached) = names) by reflexivity.
  assert (Hone : forall k c, In (k, c) (combine names cached) ->
                   assoc k merged = Some (JBool (requested props k || truthy c))).
  { intros k c Hin. unfold merged, merged_flags.
    apply (assoc_mapped
             (fun kc => JBool (requested props (fst kc) || truthy (snd kc))) k c).
    - fold names. fold cached. rewrite Hfst. exact Hnd.
    - exact Hin. }
  assert (Hkeys : map fst merged = names).
  { unfold merged, merged_flags. rewrite map_map. exact Hfst. }
  split; [| split; [exact Htext | split; [| split; [exact Hkeys |
                                           split; [reflexivity | split] ] ] ] ].
  - subst params r. rewrite <- Htext.
    apply updateFeatureSettings_run; assumption.
  - apply JSON_parse_flags; [apply merged_flags_boolean |].
    rewrite Hkeys. exact Hnd.
  - exact Hone.
  - intros k Hin. rewrite (Hone k (JBool true) Hin). simpl.
    rewrite orb_true_r. reflexivity.
Qed.

End FeatureSettingsProperties.

(** * The operations on concrete inputs *)

(** C1, on an input: the cached [front_facing_flash] survives the request to
    switch it off, [replay_snaps] is switched on, [night_vision] is
    dropped. *)
Lemma updateFeatureSettings_merges_sample :
  requests (trace (snd (updateFeatureSettings (canned (ok_reply (JStr "")))
                          sample_featureSettings (JObj sample_request) (JFun 0)
                          sample_world)))
  = [ (update_featureSettings,
       JObj [ ("settings",
               JStr (json_text
                       ("{'front_facing_flash':true,'replay_snaps':true,"
                        ++ "'smart_filters':false,'visual_filters':false,"
                        ++ "'power_save_mode':false,'special_text':false,"
                        ++ "'swipe_cash_mode':false,'travel_mode':false}")%string));
              ("username", JStr "teamsnapchat") ]) ].
Proof.
  assert (Hnd : NoDup (feature_names sample_featureSettings)).
  { repeat constructor; simpl; intuition discriminate. }
  destruct (updateFeatureSettings_merges (canned (ok_reply (JStr "")))
              sample_featureSettings sample_request 0 sample_world
              Hnd eq_refl eq_refl eq_refl) as [Hrun _].
  rewrite Hrun. reflexivity.
Defined.

(** C2, as stated, fails: nothing reaches the callback. *)
Lemma uploadAvatar_never_calls_back :
  fst (uploadAvatar (JArr []) (JFun 0) sample_world)
  = Throw (Error "Account.uploadAvatar TODO")
  /\ ~ (exists args : list value,
          In (EvCall (JFun 0) args)
             (trace (snd (uploadAvatar (JArr []) (JFun 0) sample_world)))).
Proof.
  split; [reflexivity |]. intros [args Hin]. exact Hin.
Qed.

(** C3, as stated, fails: the body [{}] parses to an object without a
    [best_friends] field, and the call reports success, leaving
    [undefined] in the cache. *)
Lemma updateBestFriendsCount_missing_field_succeeds :
  let body := JStr (json_text "{}") in
  let out := updateBestFriendsCount (canned (ok_reply body)) StringUtils_tryParseJSON
               5 (JFun 0) sample_world in
  StringUtils_tryParseJSON body = JObj []
  /\ assoc "best_friends" [] = None
  /\ out = (Normal tt,
            mkWorld (mkClient (JStr "teamsnapchat")
                              (with_bestFriendUsernames JUndefined sample_session))
                    [ EvPost account_setBestsCount
                             (JObj [ ("num_best_friends", JNum 5);
                                     ("username", JStr "teamsnapchat") ]);
                      EvCall (JFun 0) [JNull] ])
  /\ ~ In (EvCall (JFun 0) [JStr parse_error]) (trace (snd out)).
Proof.
  cbv zeta. repeat split. vm_compute. intuition discriminate.
Qed.

(** C3, on an input: a body that is no JSON. *)
Lemma updateBestFriendsCount_parse_failure_sample :
  updateBestFriendsCount (canned (ok_reply (JStr "<html>Bad Gateway</html>")))
    StringUtils_tryParseJSON 9 (JFun 0) sample_world
  = (Normal tt,
     mkWorld sample_client
             [ EvPost account_setBestsCount
                      (JObj [ ("num_best_friends", JNum 7);
                              ("username", JStr "teamsnapchat") ]);
               EvCall (JFun 0) [JStr parse_error] ]).
Proof.
  exact (proj1 (proj1 (updateBestFriendsCount_parse_failure
                         (canned (ok_reply (JStr "<html>Bad Gateway</html>")))
                         StringUtils_tryParseJSON 9 0 sample_world eq_refl)
                      eq_refl)).
Defined.

(** C4, on inputs below, above and inside the range. *)
Lemma updateBestFriendsCount_sends_clamped_sample :
  let sent (number : Z) :=
    requests (trace (snd (updateBestFriendsCount (canned (ok_reply (JStr "")))
                            StringUtils_tryParseJSON number (JFun 0) sample_world))) in
  sent 0 = [(account_setBestsCount, setBestsCount_params sample_client 3)]
  /\ sent 10 = [(account_setBestsCount, setBestsCount_params sample_client 7)]
  /\ sent 5 = [(account_setBestsCount, setBestsCount_params sample_client 5)].
Proof.
  cbv zeta. split; [| split].
  - destruct (updateBestFriendsCount_sends_clamped (canned (ok_reply (JStr "")))
                StringUtils_tryParseJSON 0 (JFun 0) sample_world)
      as [sent [Hreq [_ [Hlow _]]]].
    rewrite Hreq, Hlow by lia. reflexivity.
  - destruct (updateBestFriendsCount_sends_clamped (canned (ok_reply (JStr "")))
                StringUtils_tryParseJSON 10 (JFun 0) sample_world)
      as [sent [Hreq [_ [_ [Hhigh _]]]]].
    rewrite Hreq, Hhigh by lia. reflexivity.
  - destruct (updateBestFriendsCount_sends_clamped (canned (ok_reply (JStr "")))
                StringUtils_tryParseJSON 5 (JFun 0) sample_world)
      as [sent [Hreq [_ [_ [_ Hin]]]]].
    rewrite Hreq, Hin by lia. reflexivity.
Defined.

(** C5, as stated, fails below the 32-bit range: for [-2147483649] the
    request carries [2147483647], which is neither [min(privacy, 1)] nor at
    most 1. *)
Lemma updateSnapPrivacy_wraps_below_int32 :
  requests (trace (snd (updateSnapPrivacy (canned (ok_reply (JStr "")))
                          (-2147483649) (JFun 0) sample_world)))
  = [ (account_settings,
       JObj [ ("action", JStr "updatePrivacy");
              ("privacySetting", JNum 2147483647);
              ("username", JStr "teamsnapchat") ]) ]
  /\ 2147483647 <> Z.min (-2147483649) 1
  /\ ~ 2147483647 <= 1.
Proof.
  split; [reflexivity | split; [discriminate | lia] ].
Qed.

(** C5, on the two inputs of the spec. *)
Lemma updateSnapPrivacy_sends_min_sample :
  let sent (privacy : Z) :=
    requests (trace (snd (updateSnapPrivacy (canned (ok_reply (JStr "")))
                            privacy (JFun 0) sample_world))) in
  let expected (n : Z) :=
    [ (account_settings,
       JObj [ ("action", JStr "updatePrivacy");
              ("privacySetting", JNum n);
              ("username", JStr "teamsnapchat") ]) ] in
  sent 5 = expected 1 /\ sent (-3) = expected (-3).
Proof.
  cbv zeta. split.
  - destruct (updateSnapPrivacy_sends_min (canned (ok_reply (JStr "")))
                5 (JFun 0) sample_world ltac:(lia)) as [sent [Hreq [Hmin _]]].
    rewrite Hreq, Hmin. reflexivity.
  - destruct (updateSnapPrivacy_sends_min (canned (ok_reply (JStr "")))
                (-3) (JFun 0) sample_world ltac:(lia)) as [sent [Hreq [Hmin _]]].
    rewrite Hreq, Hmin. reflexivity.
Defined.

(** C6, as stated, fails: a body whose object has another field than
    [best_friends] is not reported as a parse failure, and the cached list
    is not left as it was: [cb] receives [null] and the cache holds
    [undefined]. *)
Lemma updateBestFriendsCount_other_field_overwrites_cache :
  let body := JStr (json_text "{'friends':['x','y']}") in
  let out := updateBestFriendsCount (canned (ok_reply body)) StringUtils_tryParseJSON
               5 (JFun 0) sample_world in
  let cache (w : World) := bestFriendUsernames (currentSession (client w)) in
  StringUtils_tryParseJSON body = JObj [("friends", JArr [JStr "x"; JStr "y"])]
  /\ assoc "best_friends" [("friends", JArr [JStr "x"; JStr "y"])] = None
  /\ trace (snd out)
     = [ EvPost account_setBestsCount
                (JObj [ ("num_best_friends", JNum 5);
                        ("username", JStr "teamsnapchat") ]);
         EvCall (JFun 0) [JNull] ]
  /\ ~ In (EvCall (JFun 0) [JStr parse_error]) (trace (snd out))
  /\ cache sample_world = JArr [JStr "a"; JStr "b"; JStr "c"]
  /\ cache (snd out) = JUndefined
  /\ cache (snd out) <> cache sample_world.
Proof.
  cbv zeta.
  split; [reflexivity | split; [reflexivity | split; [reflexivity | split] ] ].
  - vm_compute. intuition discriminate.
  - split; [reflexivity | split; [reflexivity | discriminate] ].
Qed.

(** C6, on the body of the spec, on a body that is no JSON and on a body
    without the field. *)
Lemma updateBestFriendsCount_cache_sample :
  let run (body : string) :=
    snd (updateBestFriendsCount (canned (ok_reply (JStr body)))
           StringUtils_tryParseJSON 4 (JFun 0) sample_world) in
  bestFriendUsernames
    (currentSession (client (run (json_text "{'best_friends':['x','y','z']}"))))
  = JArr [JStr "x"; JStr "y"; JStr "z"]
  /\ client (run "<html>Bad Gateway</html>") = sample_client
  /\ bestFriendUsernames (currentSession (client (run "[]"))) = JUndefined.
Proof.
  cbv zeta. split; [| split].
  - exact (proj1 (proj2 (proj1 (updateBestFriendsCount_cache
                                  (canned (ok_reply (JStr (json_text "{'best_friends':['x','y','z']}"))))
                                  StringUtils_tryParseJSON 4 0 sample_world eq_refl)
                               [("best_friends", JArr [JStr "x"; JStr "y"; JStr "z"])]
                               (JArr [JStr "x"; JStr "y"; JStr "z"])
                               eq_refl eq_refl))).
  - exact (proj1 (proj2 (proj1 (proj2 (updateBestFriendsCount_cache
                                         (canned (ok_reply (JStr "<html>Bad Gateway</html>")))
                                         StringUtils_tryParseJSON 4 0 sample_world eq_refl))
                               eq_refl))).
  - refine (proj1 (proj2 (proj2 (proj2 (updateBestFriendsCount_cache
                                          (canned (ok_reply (JStr "[]")))
                                          StringUtils_tryParseJSON 4 0 sample_world eq_refl))
                                eq_refl _))).
    intros props Hobj. discriminate Hobj.
Defined.

(** C7, on a body of six bytes. *)
Lemma downloads_blob_sample :
  let transport := canned (ok_reply (JBuffer "GIF89a")) in
  downloadSnaptag transport sample_SKBlob_new (JFun 0) sample_world
  = (Normal tt,
     mkWorld sample_client
             [ EvPost account_snaptag
                      (JObj [ ("image", JStr "/qr/teamsnapchat");
                              ("type", JStr "SVG");
                              ("username", JStr "teamsnapchat") ]);
               EvCall (JFun 0) [JNull; JObj [("_data", JBuffer "GIF89a")]] ])
  /\ downloadAvatar transport sample_decompress_result (JStr "evan") (JFun 0)
                    sample_world
     = (Normal tt,
        mkWorld sample_client
                [ EvPost account_avatar_get
                         (JObj [ ("username_image", JStr "evan");
                                 ("username", JStr "teamsnapchat");
                                 ("size", JStr "MEDIUM") ]);
                  EvDecompress (JBuffer "GIF89a");
                  EvCall (JFun 0)
                         [ JNull;
                           JObj [ ("_data", JBuffer "GIF89a");
                                  ("decompressed", JBool true) ] ] ]).
Proof.
  cbv zeta.
  destruct (downloads_blob (canned (ok_reply (JBuffer "GIF89a")))
              sample_SKBlob_new sample_decompress_result
              (JStr "evan") 0 "GIF89a" sample_world) as [Hsnaptag Havatar].
  split.
  - exact (Hsnaptag eq_refl eq_refl).
  - exact (Havatar eq_refl eq_refl).
Defined.

(** C8, on the inputs of the spec. *)
Lemma updateStoryPrivacy_block_list_sample :
  let sent (privacy : Z) (friends : value) :=
    requests (trace (snd (updateStoryPrivacy (canned (ok_reply (JStr "")))
                            sample_stringFromStoryPrivacy privacy friends (JFun 0)
                            sample_world))) in
  sent 2 (JArr [JStr "alice"; JStr "bob"])
  = [ (account_settings,
       JObj [ ("action", JStr "updateStoryPrivacy");
              ("privacySetting", JStr "CUSTOM");
              ("username", JStr "teamsnapchat");
              ("storyFriendsToBlock", JStr (json_text "['alice','bob']")) ]) ]
  /\ (exists params : value,
        sent 0 JUndefined = [(account_settings, params)]
        /\ param "storyFriendsToBlock" params = None
        /\ param_names params = ["action"; "privacySetting"; "username"]%string).
Proof.
  cbv zeta. split.
  - destruct (updateStoryPrivacy_block_list (canned (ok_reply (JStr "")))
                sample_stringFromStoryPrivacy 2 ["alice"; "bob"]%string (JFun 0)
                sample_world) as [Hsent _].
    exact Hsent.
  - destruct (updateStoryPrivacy_block_list (canned (ok_reply (JStr "")))
                sample_stringFromStoryPrivacy 0 [] (JFun 0) sample_world)
      as [_ [_ [_ Habsent]]].
    exact (Habsent JUndefined (or_introl eq_refl)).
Defined.

(** * Further properties of the operations *)

(** ** updateBestFriendsCount, beyond the parse *)

Section BestFriendsCount.

Variable transport : Endpoint -> value -> Reply.
Variable tryParseJSON : value -> value.

(** What a call does when [cb] is no function: the request goes out, the
    cache is written on success, and calling [cb] raises a TypeError. *)
Lemma updateBestFriendsCount_run_no_callback (number : Z) (cb : value) (w : World) :
  is_function cb = false ->
  let params := setBestsCount_params (client w) (clamped_count number) in
  let r := transport account_setBestsCount params in
  let result := tryParseJSON (body r) in
  let posted := trace w ++ [EvPost account_setBestsCount params] in
  let failure := TypeError "callback is not a function" in
  updateBestFriendsCount transport tryParseJSON number cb w
  = if truthy (err r) then (Throw failure, mkWorld (client w) posted)
    else if truthy result then
      (Throw failure,
       mkWorld (mkClient (username (client w))
                         (with_bestFriendUsernames (read_best_friends result)
                                                   (currentSession (client w))))
               posted)
    else (Throw failure, mkWorld (client w) posted).
Proof.
  intros Hcb. unfold updateBestFriendsCount, setBestsCount_params, clamped_count,
    read_best_friends.
  run_op. rewrite Hcb.
  destruct (truthy (err _)); [reflexivity |].
  destruct (tryParseJSON _) as [| | b | n | s | items | props | f | bytes];
    simpl; try reflexivity.
  - destruct b; reflexivity.
  - destruct (n =? 0); reflexivity.
  - destruct (String.eqb s ""); reflexivity.
Qed.

(** The client after a call: as before, or with a new cached list. *)
Lemma updateBestFriendsCount_client (number : Z) (cb : value) (w : World) :
  let params := setBestsCount_params (client w) (clamped_count number) in
  let r := transport account_setBestsCount params in
  client (snd (updateBestFriendsCount transport tryParseJSON number cb w))
  = if negb (truthy (err r)) && truthy (tryParseJSON (body r))
    then mkClient (username (client w))
                  (with_bestFriendUsernames (read_best_friends (tryParseJSON (body r)))
                                            (currentSession (client w)))
    else client w.
Proof.
  cbv zeta. destruct (is_function cb) eqn:Hcb.
  - destruct cb; try discriminate Hcb.
    rewrite updateBestFriendsCount_run.
    destruct (truthy (err _)); [reflexivity |].
    destruct (truthy (tryParseJSON _)); reflexivity.
  - rewrite updateBestFriendsCount_run_no_callback by exact Hcb.
    destruct (truthy (err _)); [reflexivity |].
    destruct (truthy (tryParseJSON _)); reflexivity.
Qed.

(** X1: when the transport fails (a truthy [err]), [cb] receives that
    [err] and nothing else, the body is not looked at, and the client, its
    cached list included, is as before. *)
Theorem updateBestFriendsCount_transport_failure (number : Z) (id : nat) (w : World) :
  let params := setBestsCount_params (client w) (clamped_count number) in
  let r := transport account_setBestsCount params in
  truthy (err r) = true ->
  updateBestFriendsCount transport tryParseJSON number (JFun id) w
  = (Normal tt,
     mkWorld (client w)
             (trace w ++ [ EvPost account_setBestsCount params;
                           EvCall (JFun id) [err r] ])).
Proof.
  intros params r Herr. rewrite updateBestFriendsCount_run.
  fold params. fold r. rewrite Herr. rewrite <- app_assoc. reflexivity.
Qed.

(** X2: whatever integer is asked for and whatever [cb] is, exactly one
    request goes out, and its count is [max(3, min(7, number))]: never
    below 3, never above 7. *)
Theorem updateBestFriendsCount_count_in_range (number : Z) (cb : value) (w : World) :
  requests (trace (snd (updateBestFriendsCount transport tryParseJSON number cb w)))
  = requests (trace w)
    ++ [ (account_setBestsCount,
          setBestsCount_params (client w) (Z.max 3 (Z.min 7 number))) ]
  /\ 3 <= Z.max 3 (Z.min 7 number) <= 7.
Proof.
  split; [| lia].
  rewrite updateBestFriendsCount_request.
  assert (Hcount : clamped_count number = Z.max 3 (Z.min 7 number)).
  { destruct (clamped_count_spec number) as [Hlow [Hhigh Hmid]].
    destruct (Z_lt_le_dec number 3) as [Hlt | Hge];
      [rewrite (Hlow Hlt); lia |].
    destruct (Z_lt_le_dec 7 number) as [Hgt | Hle];
      [rewrite (Hhigh Hgt); lia |].
    rewrite (Hmid (conj Hge Hle)). lia. }
  rewrite Hcount. reflexivity.
Qed.

(** X3: when the transport succeeds and the body parses to a truthy value
    that has no [best_friends] of its own (an object without the field, an
    array, a number, a string, [true]), the call reports success and the
    cached list is replaced by [undefined]: the previous list is lost. *)
Theorem updateBestFriendsCount_missing_field_clears_cache (number : Z) (id : nat)
        (w : World) :
  let params := setBestsCount_params (client w) (clamped_count number) in
  let r := transport account_setBestsCount params in
  let out := updateBestFriendsCount transport tryParseJSON number (JFun id) w in
  truthy (err r) = false ->
  truthy (tryParseJSON (body r)) = true ->
  (forall props, tryParseJSON (body r) = JObj props ->
                 assoc "best_friends" props = None) ->
  bestFriendUsernames (currentSession (client (snd out))) = JUndefined
  /\ trace (snd out)
     = trace w ++ [ EvPost account_setBestsCount params; EvCall (JFun id) [JNull] ].
Proof.
  intros params r out Herr Htruthy Hfield. subst out.
  rewrite updateBestFriendsCount_run. fold params. fold r.
  rewrite Herr, Htruthy. simpl. rewrite <- app_assoc. split; [| reflexivity].
  destruct (tryParseJSON (body r)) as [| | b | n | s | items | props | f | bytes];
    try reflexivity; try discriminate Htruthy.
  simpl. rewrite (Hfield props eq_refl). reflexivity.
Qed.

(** X4: in every outcome (transport failure, parse failure, success, [cb]
    a function or not) the username, the eight cached flags and the QR path
    are as before: the only part of the client a call can change is the
    cached list of best friends. *)
Theorem updateBestFriendsCount_frame (number : Z) (cb : value) (w : World) :
  let after := client (snd (updateBestFriendsCount transport tryParseJSON number cb w)) in
  username after = username (client w)
  /\ session_frame (currentSession after) = session_frame (currentSession (client w)).
Proof.
  cbv zeta. rewrite updateBestFriendsCount_client.
  destruct (negb _ && _); split; reflexivity.
Qed.

(** X6: when [cb] is no function (left out, say) and the transport
    succeeds with an object that has a [best_friends] field, the request
    still goes out and the cache is still replaced by that field; only then
    does the call of [cb] raise a TypeError. *)
Theorem updateBestFriendsCount_without_callback (number : Z) (cb : value) (w : World)
        (props : list (string * value)) (best : value) :
  let params := setBestsCount_params (client w) (clamped_count number) in
  let r := transport account_setBestsCount params in
  let out := updateBestFriendsCount transport tryParseJSON number cb w in
  is_function cb = false ->
  truthy (err r) = false ->
  tryParseJSON (body r) = JObj props ->
  assoc "best_friends" props = Some best ->
  fst out = Throw (TypeError "callback is not a function")
  /\ bestFriendUsernames (currentSession (client (snd out))) = best
  /\ trace (snd out) = trace w ++ [EvPost account_setBestsCount params].
Proof.
  intros params r out Hcb Herr Hobj Hfield. subst out.
  rewrite updateBestFriendsCount_run_no_callback by exact Hcb.
  fold params. fold r. rewrite Herr, Hobj. simpl.
  unfold read_best_friends. simpl. rewrite Hfield. repeat split.
Qed.

End BestFriendsCount.

(** ** Two calls of updateBestFriendsCount *)

Section BestFriendsCountTwice.

(** The transport as it answers the first call, and as it answers the
    second: the two need not agree, even on the same request. *)
Variable first second : Endpoint -> value -> Reply.
Variable tryParseJSON : value -> value.

(** X7: two calls in a row, the transport being free to answer the second
    differently from the first.  When the first succeeds with a list, both
    requests go out in order, with the same username; a second call that
    fails (in the transport or in the parse) leaves the list of the first
    in the cache, and a second call that succeeds with a list replaces it:
    the cache holds the list of the last successful reply. *)
Theorem updateBestFriendsCount_twice (n1 n2 : Z) (id1 id2 : nat) (w : World)
        (props1 : list (string * value)) (best1 : value) :
  let p1 := setBestsCount_params (client w) (clamped_count n1) in
  let p2 := setBestsCount_params (client w) (clamped_count n2) in
  let r1 := first account_setBestsCount p1 in
  let r2 := second account_setBestsCount p2 in
  let out :=
    (updateBestFriendsCount first tryParseJSON n1 (JFun id1) ;;;
     updateBestFriendsCount second tryParseJSON n2 (JFun id2)) w in
  let cache := bestFriendUsernames (currentSession (client (snd out))) in
  truthy (err r1) = false ->
  tryParseJSON (body r1) = JObj props1 ->
  assoc "best_friends" props1 = Some best1 ->
  requests (trace (snd out))
  = requests (trace w) ++ [(account_setBestsCount, p1); (account_setBestsCount, p2)]
  /\ (truthy (err r2) = true \/ truthy (tryParseJSON (body r2)) = false ->
      cache = best1)
  /\ (forall props2 best2,
        truthy (err r2) = false ->
        tryParseJSON (body r2) = JObj props2 ->
        assoc "best_friends" props2 = Some best2 ->
        cache = best2).
Proof.
  intros p1 p2 r1 r2 out cache Herr1 Hobj1 Hfield1. subst cache out.
  unfold bind. rewrite updateBestFriendsCount_run. fold p1. fold r1.
  rewrite Herr1, Hobj1. cbn [truthy].
  rewrite updateBestFriendsCount_run. cbn [client trace].
  repeat match goal with
         | |- context [setBestsCount_params (mkClient ?u ?s) (clamped_count n2)] =>
             change (setBestsCount_params (mkClient u s) (clamped_count n2)) with p2
         end.
  fold r2.
  split; [| split].
  - destruct (truthy (err r2)); [| destruct (truthy (tryParseJSON (body r2)))];
      cbn [snd trace]; tidy_trace; reflexivity.
  - intros [Herr2 | Hparse2].
    + rewrite Herr2. simpl. rewrite Hfield1. reflexivity.
    + destruct (truthy (err r2)); rewrite ?Hparse2; simpl; rewrite Hfield1;
        reflexivity.
  - intros props2 best2 Herr2 Hobj2 Hfield2.
    rewrite Herr2, Hobj2. simpl. rewrite Hfield2. reflexivity.
Qed.

End BestFriendsCountTwice.

(** ** The operations that never write to the client *)

Lemma keeps_client_ret {A : Type} (a : A) : keeps_client (ret a).
Proof. intros w. reflexivity. Qed.

Lemma keeps_client_throw {A : Type} (e : Exception) : keeps_client (@throw A e).
Proof. intros w. reflexivity. Qed.

Lemma keeps_client_emit (e : Event) : keeps_client (emit e).
Proof. intros w. reflexivity. Qed.

Lemma keeps_client_self : keeps_client self_client.
Proof. intros w. reflexivity. Qed.

Lemma keeps_client_bind {A B : Type} (m : Js A) (k : A -> Js B) :
  keeps_client m -> (forall a, keeps_client (k a)) -> keeps_client (bind m k).
Proof.
  intros Hm Hk w. unfold bind. specialize (Hm w).
  destruct (m w) as [[a | e] w']; simpl in *.
  - rewrite Hk. exact Hm.
  - exact Hm.
Qed.

Lemma keeps_client_call (f : value) (args : list value) : keeps_client (call f args).
Proof.
  unfold call. destruct (is_function f);
    [apply keeps_client_emit | apply keeps_client_throw].
Qed.

Lemma keeps_client_get_prop (o : value) (k : string) : keeps_client (get_prop o k).
Proof.
  unfold get_prop. destruct (get_own o k);
    [apply keeps_client_ret | apply keeps_client_throw].
Qed.

Lemma keeps_client_Buffer_new (v : value) : keeps_client (Buffer_new v).
Proof.
  destruct v; first [apply keeps_client_ret | apply keeps_client_throw].
Qed.

Lemma keeps_client_post (transport : Endpoint -> value -> Reply) (path : Endpoint)
      (params : value) (callback : Reply -> Js unit) :
  (forall r, keeps_client (callback r)) ->
  keeps_client (post transport path params callback).
Proof.
  intros Hcallback. unfold post.
  apply keeps_client_bind; [apply keeps_client_emit | intros _; apply Hcallback].
Qed.

Lemma keeps_client_forward (cb : value) (r : Reply) : keeps_client (forward cb r).
Proof. apply keeps_client_call. Qed.

Lemma keeps_client_decompress (result : value -> list value) (data cb : value) :
  keeps_client (SKBlob_decompress result data cb).
Proof.
  unfold SKBlob_decompress.
  apply keeps_client_bind; [apply keeps_client_emit | intros _; apply keeps_client_call].
Qed.

Lemma keeps_client_merge_feature (settings : value) (key : string) (cached : value)
      (features : list (string * value)) :
  keeps_client (merge_feature settings key cached features).
Proof.
  unfold merge_feature.
  apply keeps_client_bind; [apply keeps_client_get_prop | intros; apply keeps_client_ret].
Qed.

Create HintDb frame.
#[local] Hint Resolve keeps_client_ret keeps_client_throw keeps_client_emit
  keeps_client_self keeps_client_call keeps_client_get_prop keeps_client_Buffer_new
  keeps_client_forward keeps_client_decompress keeps_client_merge_feature : frame.

Ltac frame_steps :=
  repeat first
    [ apply keeps_client_bind; [solve [auto with frame] | intros]
    | apply keeps_client_post; intros
    | match goal with
      | |- keeps_client (if ?b then _ else _) => destruct b
      end
    | solve [auto with frame] ].

(** ** Objects with unset flags *)

Lemma assoc_fresh (k : string) (l : list (string * value)) :
  ~ In k (map fst l) -> assoc k l = None.
Proof.
  induction l as [| [k' v'] rest IH]; simpl; intros Hfresh; [reflexivity |].
  destruct (String.eqb_spec k k') as [-> | Hne].
  - exfalso. apply Hfresh. left. reflexivity.
  - apply IH. intros Hin. apply Hfresh. right. exact Hin.
Qed.

Lemma keys_filter (f : string * value -> bool) (k : string)
      (l : list (string * value)) :
  In k (map fst (filter f l)) -> In k (map fst l).
Proof.
  intros Hin. apply in_map_iff in Hin. destruct Hin as [kv [<- Hin]].
  apply filter_In in Hin. apply in_map. apply Hin.
Qed.

Lemma NoDup_keys_filter (f : string * value -> bool) (l : list (string * value)) :
  NoDup (map fst l) -> NoDup (map fst (filter f l)).
Proof.
  induction l as [| [k v] rest IH]; simpl; intros Hnd; [constructor |].
  inversion Hnd as [| ? ? Hfresh Hrest]; subst.
  destruct (f (k, v)); simpl; [constructor |]; auto.
  intros Hin. apply Hfresh. apply (keys_filter f). exact Hin.
Qed.

Lemma assoc_filter_keep (f : string * value -> bool) (k : string) (v : value)
      (l : list (string * value)) :
  NoDup (map fst l) -> assoc k l = Some v -> f (k, v) = true ->
  assoc k (filter f l) = Some v.
Proof.
  induction l as [| [k' v'] rest IH]; simpl; intros Hnd Hfind Hkeep;
    [discriminate Hfind |].
  inversion Hnd as [| ? ? Hfresh Hrest]; subst.
  destruct (String.eqb_spec k k') as [-> | Hne].
  - injection Hfind as ->. rewrite Hkeep. simpl. rewrite String.eqb_refl. reflexivity.
  - destruct (f (k', v')); simpl.
    + destruct (String.eqb_spec k k'); [contradiction | auto].
    + auto.
Qed.

Lemma assoc_filter_drop (f : string * value -> bool) (k : string) (v : value)
      (l : list (string * value)) :
  NoDup (map fst l) -> assoc k l = Some v -> f (k, v) = false ->
  assoc k (filter f l) = None.
Proof.
  induction l as [| [k' v'] rest IH]; simpl; intros Hnd Hfind Hdrop;
    [discriminate Hfind |].
  inversion Hnd as [| ? ? Hfresh Hrest]; subst.
  destruct (String.eqb_spec k k') as [-> | Hne].
  - injection Hfind as ->. rewrite Hdrop.
    apply assoc_fresh. intros Hin. apply Hfresh. apply (keys_filter f). exact Hin.
  - destruct (f (k', v')); simpl.
    + destruct (String.eqb_spec k k'); [contradiction | auto].
    + auto.
Qed.

(** One merged value when flags may be unset. *)
Lemma merged_value_cases (props : list (string * value)) (k : string) (c : value) :
  match assoc k props with Some v => is_boolean v | None => true end = true ->
  flag_or_unset c = true ->
  js_or (own props k) c
  = if requested props k || is_boolean c
    then JBool (requested props k || truthy c)
    else JUndefined.
Proof.
  unfold requested, js_or, own, flag_or_unset. intros Hreq Hcached.
  destruct (assoc k props) as [v |].
  - destruct v; try discriminate Hreq.
    match goal with |- context [truthy (JBool ?b)] => destruct b end; simpl;
      [reflexivity |].
    destruct c; try discriminate Hcached; reflexivity.
  - simpl. destruct c; try discriminate Hcached; reflexivity.
Qed.

Lemma flat_map_sendable (flags : list (string * value)) :
  forallb (fun kv => flag_or_unset (snd kv)) flags = true ->
  flat_map (fun kv => match serialize (snd kv) with
                      | Some t => [(Quote (fst kv) ++ ":" ++ t)%string]
                      | None => []
                      end) flags
  = map flag_entry (filter sendable flags).
Proof.
  induction flags as [| [k v] rest IH]; cbn [flat_map map forallb filter];
    intros Hvalues; [reflexivity |].
  apply andb_true_iff in Hvalues. destruct Hvalues as [Hv Hrest].
  rewrite IH by exact Hrest.
  destruct v; try discriminate Hv; reflexivity.
Qed.

Lemma serialize_sendable (flags : list (string * value)) :
  forallb (fun kv => flag_or_unset (snd kv)) flags = true ->
  serialize (JObj flags) = Some (flags_text (filter sendable flags)).
Proof.
  intros Hvalues. unfold flags_text. rewrite <- flat_map_sendable by exact Hvalues.
  reflexivity.
Qed.

(** ** Counting requests *)





Section OtherOperations.

Variable transport : Endpoint -> value -> Reply.
Variable stringFromStoryPrivacy : Z -> value.
Variable featureSettings : FeatureSettings.
Variable SKBlob_new : value -> value.
Variable SKBlob_decompress_result : value -> list value.

(** X8: no operation other than [updateBestFriendsCount] writes to the
    client or its session.  For the ten operations whose code is all here:
    whatever the arguments, whatever [cb] is, whatever the transport
    replies, and whether the operation completes or throws, the client
    afterwards is the client before; in particular [updateFeatureSettings]
    does not refresh the cached flags from what it sent, and
    [updateStoryPrivacy] and [updateSnapPrivacy] cache nothing.
    [updateDisplayName] adds no write of its own to the friends operation it
    delegates to: it leaves the client alone whenever that operation does. *)
Theorem other_operations_keep_client :
  (forall privacy cb, keeps_client (updateSnapPrivacy transport privacy cb))
  /\ (forall privacy friends cb,
        keeps_client (updateStoryPrivacy transport stringFromStoryPrivacy
                                         privacy friends cb))
  /\ (forall address cb, keeps_client (updateEmail transport address cb))
  /\ (forall searchable cb,
        keeps_client (updateSearchableByNumber transport searchable cb))
  /\ (forall enableSound cb,
        keeps_client (updateNotificationSoundSetting transport enableSound cb))
  /\ (forall settings cb,
        keeps_client (updateFeatureSettings transport featureSettings settings cb))
  /\ (forall cb, keeps_client (downloadSnaptag transport SKBlob_new cb))
  /\ (forall images cb, keeps_client (uploadAvatar images cb))
  /\ (forall username_image cb,
        keeps_client (downloadAvatar transport SKBlob_decompress_result
                                     username_image cb))
  /\ (forall snapcash snapcashV2 square cb,
        keeps_client (updateTOSAgreementStatus transport snapcash snapcashV2
                                               square cb))
  /\ (forall updateDisplayNameForUser : value -> value -> value -> Js unit,
        (forall user displayName cb,
            keeps_client (updateDisplayNameForUser user displayName cb)) ->
        forall displayName cb,
          keeps_client (updateDisplayName updateDisplayNameForUser displayName cb)).
Proof.
  repeat apply conj; intros.
  - unfold updateSnapPrivacy. frame_steps.
  - unfold updateStoryPrivacy. destruct (is_function friends); frame_steps.
  - unfold updateEmail. frame_steps.
  - unfold updateSearchableByNumber. frame_steps.
  - unfold updateNotificationSoundSetting. frame_steps.
  - unfold updateFeatureSettings. frame_steps.
  - unfold downloadSnaptag. frame_steps.
  - unfold uploadAvatar. frame_steps.
  - unfold downloadAvatar. frame_steps.
  - unfold updateTOSAgreementStatus. frame_steps.
  - unfold updateDisplayName.
    apply keeps_client_bind; [apply keeps_client_self | intros; auto].
Qed.

(** *** updateSnapPrivacy and updateStoryPrivacy *)

(** X9: every level from 1 up acts as level 1: the request carries
    [privacySetting = 1], and the reply of the transport is handed to [cb]
    as it is. *)
Theorem updateSnapPrivacy_saturates (privacy : Z) (id : nat) (w : World) :
  1 <= privacy ->
  let params :=
    JObj [ ("action", JStr "updatePrivacy");
           ("privacySetting", JNum 1);
           ("username", username (client w)) ] in
  let r := transport account_settings params in
  updateSnapPrivacy transport privacy (JFun id) w
  = (Normal tt,
     mkWorld (client w)
             (trace w ++ [ EvPost account_settings params;
                           EvCall (JFun id) [err r; response r; body r] ])).
Proof.
  intros Hhigh. unfold updateSnapPrivacy, Math_min.
  rewrite Z.min_r by lia. run_op. rewrite <- app_assoc. reflexivity.
Qed.



(** *** The downloads when things go wrong *)

(** X15: when the transport fails (a truthy [err]), [downloadSnaptag] and
    [downloadAvatar] hand that [err] to [cb] and nothing else: no blob is
    built, no decode step runs, and the client is as before. *)
Theorem downloads_transport_failure (username_image : value) (id : nat) (w : World) :
  let snaptag_params :=
    JObj [ ("image", QRPath (currentSession (client w)));
           ("type", JStr "SVG");
           ("username", username (client w)) ] in
  let avatar_params :=
    JObj [ ("username_image", username_image);
           ("username", username (client w));
           ("size", JStr "MEDIUM") ] in
  (truthy (err (transport account_snaptag snaptag_params)) = true ->
   downloadSnaptag transport SKBlob_new (JFun id) w
   = (Normal tt,
      mkWorld (client w)
              (trace w ++ [ EvPost account_snaptag snaptag_params;
                            EvCall (JFun id)
                                   [err (transport account_snaptag snaptag_params)] ])))
  /\ (truthy (err (transport account_avatar_get avatar_params)) = true ->
      downloadAvatar transport SKBlob_decompress_result username_image (JFun id) w
      = (Normal tt,
         mkWorld (client w)
                 (trace w ++ [ EvPost account_avatar_get avatar_params;
                               EvCall (JFun id)
                                      [err (transport account_avatar_get avatar_params)] ]))).
Proof.
  cbv zeta. split; intros Herr.
  - unfold downloadSnaptag. run_op. rewrite Herr. simpl.
    rewrite <- app_assoc. reflexivity.
  - unfold downloadAvatar. run_op. rewrite Herr. simpl.
    rewrite <- app_assoc. reflexivity.
Qed.

(** X16: when the transport succeeds without a body ([undefined] or
    [null]), building the Buffer raises a TypeError once the reply is in:
    after the request nothing more happens, [cb] is never called and no
    decode step runs, for [downloadSnaptag] and [downloadAvatar] alike. *)
Theorem downloads_missing_body (username_image cb : value) (w : World) :
  let snaptag_params :=
    JObj [ ("image", QRPath (currentSession (client w)));
           ("type", JStr "SVG");
           ("username", username (client w)) ] in
  let avatar_params :=
    JObj [ ("username_image", username_image);
           ("username", username (client w));
           ("size", JStr "MEDIUM") ] in
  let no_body (r : Reply) :=
    truthy (err r) = false /\ (body r = JUndefined \/ body r = JNull) in
  (no_body (transport account_snaptag snaptag_params) ->
   exists message : string,
     downloadSnaptag transport SKBlob_new cb w
     = (Throw (TypeError message),
        mkWorld (client w) (trace w ++ [EvPost account_snaptag snaptag_params])))
  /\ (no_body (transport account_avatar_get avatar_params) ->
      exists message : string,
        downloadAvatar transport SKBlob_decompress_result username_image cb w
        = (Throw (TypeError message),
           mkWorld (client w) (trace w ++ [EvPost account_avatar_get avatar_params]))).
Proof.
  cbv zeta. split; intros [Herr Hbody].
  - unfold downloadSnaptag. run_op. rewrite Herr.
    destruct Hbody as [-> | ->]; eexists; reflexivity.
  - unfold downloadAvatar. run_op. rewrite Herr.
    destruct Hbody as [-> | ->]; eexists; reflexivity.
Qed.

(** *** One request per call *)


End OtherOperations.

Section FeatureSettingsRequests.

Variable transport : Endpoint -> value -> Reply.
Variable featureSettings : FeatureSettings.

(** ** updateFeatureSettings on any request *)

(** X11: without a settings object ([undefined] or [null]) the very first
    read of a flag raises a TypeError: no request goes out, [cb] is not
    called, and the world is as before. *)
Theorem updateFeatureSettings_without_settings (settings cb : value) (w : World) :
  settings = JUndefined \/ settings = JNull ->
  updateFeatureSettings transport featureSettings settings cb w
  = (Throw (TypeError "Cannot read property of undefined or null"), w).
Proof.
  intros [-> | ->]; unfold updateFeatureSettings; run_op; destruct w; reflexivity.
Qed.

(** The eight assignments on any settings object. *)
Lemma updateFeatureSettings_run_any (props : list (string * value)) (id : nat)
      (w : World) :
  NoDup (feature_names featureSettings) ->
  let merged := merged_values featureSettings props (currentSession (client w)) in
  let params :=
    JObj [ ("settings", JSON_stringify (JObj merged));
           ("username", username (client w)) ] in
  let r := transport update_featureSettings params in
  updateFeatureSettings transport featureSettings (JObj props) (JFun id) w
  = (Normal tt,
     mkWorld (client w)
             (trace w ++ [ EvPost update_featureSettings params;
                           EvCall (JFun id) [err r; response r; body r] ])).
Proof.
  destruct featureSettings as [k1 k2 k3 k4 k5 k6 k7 k8].
  destruct w as [[user [best c1 c2 c3 c4 c5 c6 c7 c8 qr]] t].
  unfold feature_names, cached_flags, merged_values, own.
  simpl. intros Hnd.
  unfold updateFeatureSettings. run_op.
  fresh_keys. rewrite <- app_assoc. reflexivity.
Qed.

Lemma merged_values_names (props : list (string * value)) (s : Session) :
  map fst (merged_values featureSettings props s) = feature_names featureSettings.
Proof.
  unfold merged_values. rewrite map_map. reflexivity.
Qed.


(** X13: when some cached flags are not set ([undefined]) the payload has
    fewer than eight names.  For a request of booleans against a cache of
    booleans and unset flags, the text sent is that of the flags that came
    out as booleans, and reads back as exactly those; a name whose cached
    flag is unset is left out unless the request switches it on (asking
    [false] for it does not send [false]); every other name carries
    requested OR cached. *)
Theorem updateFeatureSettings_unset_flags_left_out (props : list (string * value))
        (id : nat) (w : World) :
  NoDup (feature_names featureSettings) ->
  flag_request featureSettings props = true ->
  forallb flag_or_unset (cached_flags (currentSession (client w))) = true ->
  let names := feature_names featureSettings in
  let cached := cached_flags (currentSession (client w)) in
  let sent :=
    filter sendable (merged_values featureSettings props (currentSession (client w))) in
  let params :=
    JObj [ ("settings", JStr (flags_text sent));
           ("username", username (client w)) ] in
  let r := transport update_featureSettings params in
  updateFeatureSettings transport featureSettings (JObj props) (JFun id) w
  = (Normal tt,
     mkWorld (client w)
             (trace w ++ [ EvPost update_featureSettings params;
                           EvCall (JFun id) [err r; response r; body r] ]))
  /\ JSON_parse (flags_text sent) = Some (JObj sent)
  /\ (forall k, In (k, JUndefined) (combine names cached) ->
                requested props k = false ->
                assoc k sent = None)
  /\ (forall k c, In (k, c) (combine names cached) ->
                  requested props k || is_boolean c = true ->
                  assoc k sent = Some (JBool (requested props k || truthy c))).
Proof.
  intros Hnd Hreq Hcached names cached sent params r.
  set (merged := merged_values featureSettings props (currentSession (client w))).
  assert (Hkeys : NoDup (map fst merged)).
  { unfold merged. rewrite merged_values_names. exact Hnd. }
  assert (Hcase : forall k c, In (k, c) (combine names cached) ->
            assoc k merged
            = Some (if requested props k || is_boolean c
                    then JBool (requested props k || truthy c)
                    else JUndefined)).
  { intros k c Hin. unfold merged, merged_values.
    rewrite (assoc_mapped (fun kc => js_or (own props (fst kc)) (snd kc)) k c).
    - f_equal. apply merged_value_cases.
      + unfold flag_request in Hreq. rewrite forallb_forall in Hreq.
        apply Hreq. apply (in_combine_l _ _ _ _ Hin).
      + rewrite forallb_forall in Hcached.
        apply Hcached. apply (in_combine_r _ _ _ _ Hin).
    - assert (Hfst : map fst (combine names cached) = names) by reflexivity.
      fold names. fold cached. rewrite Hfst. exact Hnd.
    - exact Hin. }
  assert (Hvalues : forallb (fun kv => flag_or_unset (snd kv)) merged = true).
  { unfold merged, merged_values. apply forallb_forall. intros kv Hin.
    apply in_map_iff in Hin. destruct Hin as [[k c] [<- Hin]]. cbn [fst snd].
    rewrite merged_value_cases.
    - destruct (requested props k || is_boolean c); reflexivity.
    - unfold flag_request in Hreq. rewrite forallb_forall in Hreq.
      apply Hreq. apply (in_combine_l _ _ _ _ Hin).
    - rewrite forallb_forall in Hcached.
      apply Hcached. apply (in_combine_r _ _ _ _ Hin). }
  split; [| split; [| split] ].
  - subst params r.
    assert (Htext : JSON_stringify (JObj merged) = JStr (flags_text sent)).
    { unfold JSON_stringify. rewrite serialize_sendable by exact Hvalues.
      reflexivity. }
    rewrite <- Htext. apply updateFeatureSettings_run_any. exact Hnd.
  - apply JSON_parse_flags.
    + apply forallb_forall. intros kv Hin. apply filter_In in Hin. apply Hin.
    + apply NoDup_keys_filter. exact Hkeys.
  - intros k Hin Hoff.
    apply (assoc_filter_drop sendable k JUndefined merged Hkeys); [| reflexivity].
    rewrite (Hcase k JUndefined Hin). rewrite Hoff. reflexivity.
  - intros k c Hin Hon.
    apply (assoc_filter_keep sendable k _ merged Hkeys); [| reflexivity].
    rewrite (Hcase k c Hin). rewrite Hon. reflexivity.
Qed.

(** X14: two calls to [updateFeatureSettings] in a row, the transport
    being free to answer the second differently from the first, merge
    against the same cached flags: what the first call sent is not
    remembered.  For two requests of flags against a cache of booleans,
    both calls complete, the client is as before, both requests go out,
    each with its own flags merged into the flags cached before the first
    call, so a name the second request does not switch on goes out with its
    cached value again, whatever the first call asked.  The names are taken
    distinct and plain. *)
Theorem updateFeatureSettings_twice (second : Endpoint -> value -> Reply)
        (props1 props2 : list (string * value)) (id1 id2 : nat) (w : World) :
  NoDup (feature_names featureSettings) ->
  forallb plain_key (feature_names featureSettings) = true ->
  flag_request featureSettings props1 = true ->
  flag_request featureSettings props2 = true ->
  forallb is_boolean (cached_flags (currentSession (client w))) = true ->
  let names := feature_names featureSettings in
  let cached := cached_flags (currentSession (client w)) in
  let merged props := merged_flags featureSettings props (currentSession (client w)) in
  let params props :=
    JObj [ ("settings", JStr (flags_text (merged props)));
           ("username", username (client w)) ] in
  let out :=
    (updateFeatureSettings transport featureSettings (JObj props1) (JFun id1) ;;;
     updateFeatureSettings second featureSettings (JObj props2) (JFun id2)) w in
  fst out = Normal tt
  /\ client (snd out) = client w
  /\ requests (trace (snd out))
     = requests (trace w)
       ++ [ (update_featureSettings, params props1);
            (update_featureSettings, params props2) ]
  /\ (forall k c, In (k, c) (combine names cached) ->
                  requested props2 k = false ->
                  assoc k (merged props2) = Some c).
Proof.
  intros Hnd Hplain Hreq1 Hreq2 Hcached names cached merged params out. subst out.
  assert (Htext : forall props,
             JSON_stringify (JObj (merged props)) = JStr (flags_text (merged props))).
  { intros props. unfold JSON_stringify. rewrite serialize_flags; [reflexivity |].
    apply merged_flags_boolean. }
  unfold bind.
  rewrite (updateFeatureSettings_run transport featureSettings props1 id1 w Hnd Hreq1 Hcached).
  rewrite (updateFeatureSettings_run second featureSettings props2 id2
             (mkWorld (client w) _) Hnd Hreq2 Hcached).
  cbn [client trace fst snd]. fold (merged props1). fold (merged props2).
  rewrite !Htext.
  split; [reflexivity | split; [reflexivity | split] ].
  - tidy_trace. reflexivity.
  - intros k c Hin Hoff. unfold merged, merged_flags.
    rewrite (assoc_mapped
               (fun kc => JBool (requested props2 (fst kc) || truthy (snd kc))) k c).
    + cbn [fst snd]. rewrite Hoff. simpl.
      rewrite forallb_forall in Hcached.
      specialize (Hcached c (in_combine_r _ _ _ _ Hin)).
      destruct c; try discriminate Hcached. reflexivity.
    + assert (Hfst : map fst (combine names cached) = names) by reflexivity.
      fold names. fold cached. rewrite Hfst. exact Hnd.
    + exact Hin.
Qed.

End FeatureSettingsRequests.

(** ** The error-first convention of updateBestFriendsCount *)

Section BestFriendsCountCallback.

Variable transport : Endpoint -> value -> Reply.
Variable tryParseJSON : value -> value.

(** X5: the single argument [cb] receives tells failure from success the
    way Node callbacks do: it is truthy exactly when the call failed (in the
    transport or in the parse) and is [null] exactly when the transport
    succeeded and the body parsed to a truthy value; and the client is
    touched only in the second case. *)
Theorem updateBestFriendsCount_error_first (number : Z) (id : nat) (w : World) :
  let params := setBestsCount_params (client w) (clamped_count number) in
  let r := transport account_setBestsCount params in
  let out := updateBestFriendsCount transport tryParseJSON number (JFun id) w in
  let succeeded := negb (truthy (err r)) && truthy (tryParseJSON (body r)) in
  exists arg : value,
    trace (snd out)
    = trace w ++ [ EvPost account_setBestsCount params; EvCall (JFun id) [arg] ]
    /\ truthy arg = negb succeeded
    /\ (arg = JNull <-> succeeded = true)
    /\ (succeeded = false -> client (snd out) = client w).
Proof.
  intros params r out succeeded. subst out succeeded.
  rewrite updateBestFriendsCount_run. fold params. fold r.
  destruct (truthy (err r)) eqn:Herr;
    [| destruct (truthy (tryParseJSON (body r))) eqn:Hparse];
    eexists; simpl; rewrite <- app_assoc;
    (split; [reflexivity |]); (split; [| split]);
    try reflexivity; try exact Herr; try (intros; reflexivity);
    try (split; intros Hx; try reflexivity; try discriminate Hx).
  - rewrite Hx in Herr. discriminate Herr.
  - intros Hx. discriminate Hx.
Qed.

End BestFriendsCountCallback.

(** * The further properties on concrete inputs *)

Lemma sample_names_distinct : NoDup (feature_names sample_featureSettings).
Proof. repeat constructor; simpl; intuition discriminate. Qed.

(** X1, on a transport that timed out. *)
Lemma updateBestFriendsCount_transport_failure_sample :
  updateBestFriendsCount (canned failed_reply) StringUtils_tryParseJSON
    4 (JFun 0) sample_world
  = (Normal tt,
     mkWorld sample_client
             [ EvPost account_setBestsCount
                      (JObj [ ("num_best_friends", JNum 4);
                              ("username", JStr "teamsnapchat") ]);
               EvCall (JFun 0) [JStr "ETIMEDOUT"] ]).
Proof.
  exact (updateBestFriendsCount_transport_failure (canned failed_reply)
           StringUtils_tryParseJSON 4 0 sample_world eq_refl).
Defined.

(** X3, on a body that is a JSON array. *)
Lemma updateBestFriendsCount_missing_field_clears_cache_sample :
  bestFriendUsernames
    (currentSession
       (client (snd (updateBestFriendsCount (canned (ok_reply (JStr "[1,2]")))
                       StringUtils_tryParseJSON 4 (JFun 0) sample_world))))
  = JUndefined.
Proof.
  refine (proj1 (updateBestFriendsCount_missing_field_clears_cache
                   (canned (ok_reply (JStr "[1,2]"))) StringUtils_tryParseJSON
                   4 0 sample_world eq_refl eq_refl _)).
  intros props Hobj. discriminate Hobj.
Defined.

(** X6, on a call without callback. *)
Lemma updateBestFriendsCount_without_callback_sample :
  let out :=
    updateBestFriendsCount
      (canned (ok_reply (JStr (json_text "{'best_friends':['x','y','z']}"))))
      StringUtils_tryParseJSON 4 JUndefined sample_world in
  fst out = Throw (TypeError "callback is not a function")
  /\ bestFriendUsernames (currentSession (client (snd out)))
     = JArr [JStr "x"; JStr "y"; JStr "z"]
  /\ trace (snd out)
     = [ EvPost account_setBestsCount
                (JObj [ ("num_best_friends", JNum 4);
                        ("username", JStr "teamsnapchat") ]) ].
Proof.
  exact (updateBestFriendsCount_without_callback
           (canned (ok_reply (JStr (json_text "{'best_friends':['x','y','z']}"))))
           StringUtils_tryParseJSON 4 JUndefined sample_world
           [("best_friends", JArr [JStr "x"; JStr "y"; JStr "z"])]
           (JArr [JStr "x"; JStr "y"; JStr "z"])
           eq_refl eq_refl eq_refl eq_refl).
Defined.

(** X7, on the same count asked twice: answered with a list and then with
    a timeout, and answered with a list and then with another list. *)
Lemma updateBestFriendsCount_twice_sample :
  let listed (name : string) :=
    canned (ok_reply (JStr (json_text ("{'best_friends':['" ++ name ++ "']}")%string))) in
  let cache (first second : Endpoint -> value -> Reply) :=
    bestFriendUsernames
      (currentSession
         (client (snd ((updateBestFriendsCount first StringUtils_tryParseJSON 5 (JFun 0) ;;;
                        updateBestFriendsCount second StringUtils_tryParseJSON 5 (JFun 1))
                         sample_world)))) in
  cache (listed "x") (canned failed_reply) = JArr [JStr "x"]
  /\ cache (listed "x") (listed "y") = JArr [JStr "y"].
Proof.
  cbv zeta. split.
  - exact (proj1 (proj2 (updateBestFriendsCount_twice
                           (canned (ok_reply (JStr (json_text "{'best_friends':['x']}"))))
                           (canned failed_reply)
                           StringUtils_tryParseJSON 5 5 0 1 sample_world
                           [("best_friends", JArr [JStr "x"])] (JArr [JStr "x"])
                           eq_refl eq_refl eq_refl))
                 (or_introl eq_refl)).
  - exact (proj2 (proj2 (updateBestFriendsCount_twice
                           (canned (ok_reply (JStr (json_text "{'best_friends':['x']}"))))
                           (canned (ok_reply (JStr (json_text "{'best_friends':['y']}"))))
                           StringUtils_tryParseJSON 5 5 0 1 sample_world
                           [("best_friends", JArr [JStr "x"])] (JArr [JStr "x"])
                           eq_refl eq_refl eq_refl))
                 [("best_friends", JArr [JStr "y"])] (JArr [JStr "y"])
                 eq_refl eq_refl eq_refl).
Defined.

(** X9, on level 5. *)
Lemma updateSnapPrivacy_saturates_sample :
  updateSnapPrivacy (canned (ok_reply (JStr "ok"))) 5 (JFun 0) sample_world
  = (Normal tt,
     mkWorld sample_client
             [ EvPost account_settings
                      (JObj [ ("action", JStr "updatePrivacy");
                              ("privacySetting", JNum 1);
                              ("username", JStr "teamsnapchat") ]);
               EvCall (JFun 0) [JNull; sample_response; JStr "ok"] ]).
Proof.
  exact (updateSnapPrivacy_saturates (canned (ok_reply (JStr "ok"))) 5 0 sample_world
           ltac:(lia)).
Defined.


(** X11, on a call without settings. *)
Lemma updateFeatureSettings_without_settings_sample :
  updateFeatureSettings (canned (ok_reply (JStr ""))) sample_featureSettings
    JUndefined (JFun 0) sample_world
  = (Throw (TypeError "Cannot read property of undefined or null"), sample_world).
Proof.
  exact (updateFeatureSettings_without_settings (canned (ok_reply (JStr "")))
           sample_featureSettings JUndefined (JFun 0) sample_world
           (or_introl eq_refl)).
Defined.


(** X13, on a session with one flag set: asking [false] for an unset flag
    and [true] for another. *)
Lemma updateFeatureSettings_unset_flags_left_out_sample :
  requests
    (trace (snd (updateFeatureSettings (canned (ok_reply (JStr "")))
                   sample_featureSettings
                   (JObj [("replay_snaps", JBool false); ("travel_mode", JBool true)])
                   (JFun 0) fresh_world)))
  = [ (update_featureSettings,
       JObj [ ("settings",
               JStr (json_text "{'front_facing_flash':true,'travel_mode':true}"));
              ("username", JStr "teamsnapchat") ]) ].
Proof.
  destruct (updateFeatureSettings_unset_flags_left_out
              (canned (ok_reply (JStr ""))) sample_featureSettings
              [("replay_snaps", JBool false); ("travel_mode", JBool true)] 0
              fresh_world sample_names_distinct eq_refl eq_refl) as [Hrun _].
  rewrite Hrun. reflexivity.
Defined.

(** X14, on a request that switches a flag on, then an empty request. *)
Lemma updateFeatureSettings_twice_sample :
  let text (mode : string) :=
    json_text
      ("{'front_facing_flash':true,'replay_snaps':false,"
       ++ "'smart_filters':false,'visual_filters':false,"
       ++ "'power_save_mode':false,'special_text':false,"
       ++ "'swipe_cash_mode':false,'travel_mode':" ++ mode ++ "}")%string in
  requests
    (trace (snd ((updateFeatureSettings (canned (ok_reply (JStr ""))) sample_featureSettings
                    (JObj [("travel_mode", JBool true)]) (JFun 0) ;;;
                  updateFeatureSettings (canned failed_reply) sample_featureSettings
                    (JObj []) (JFun 1)) sample_world)))
  = [ (update_featureSettings,
       JObj [("settings", JStr (text "true")); ("username", JStr "teamsnapchat")]);
      (update_featureSettings,
       JObj [("settings", JStr (text "false")); ("username", JStr "teamsnapchat")]) ].
Proof.
  destruct (updateFeatureSettings_twice (canned (ok_reply (JStr "")))
              sample_featureSettings (canned failed_reply)
              [("travel_mode", JBool true)] [] 0 1
              sample_world sample_names_distinct eq_refl eq_refl eq_refl eq_refl)
    as [_ [_ [Hsent _]]].
  cbv zeta. rewrite Hsent. reflexivity.
Defined.

(** X15, on a transport that timed out. *)
Lemma downloads_transport_failure_sample :
  downloadSnaptag (canned failed_reply) sample_SKBlob_new (JFun 0) sample_world
  = (Normal tt,
     mkWorld sample_client
             [ EvPost account_snaptag
                      (JObj [ ("image", JStr "/qr/teamsnapchat");
                              ("type", JStr "SVG");
                              ("username", JStr "teamsnapchat") ]);
               EvCall (JFun 0) [JStr "ETIMEDOUT"] ])
  /\ downloadAvatar (canned failed_reply) sample_decompress_result (JStr "evan")
                    (JFun 0) sample_world
     = (Normal tt,
        mkWorld sample_client
                [ EvPost account_avatar_get
                         (JObj [ ("username_image", JStr "evan");
                                 ("username", JStr "teamsnapchat");
                                 ("size", JStr "MEDIUM") ]);
                  EvCall (JFun 0) [JStr "ETIMEDOUT"] ]).
Proof.
  destruct (downloads_transport_failure (canned failed_reply) sample_SKBlob_new
              sample_decompress_result (JStr "evan") 0 sample_world)
    as [Hsnaptag Havatar].
  split; [exact (Hsnaptag eq_refl) | exact (Havatar eq_refl)].
Defined.

(** X16, on a reply without body. *)
Lemma downloads_missing_body_sample :
  (exists message : string,
      downloadSnaptag (canned (ok_reply JUndefined)) sample_SKBlob_new (JFun 0)
                      sample_world
      = (Throw (TypeError message),
         mkWorld sample_client
                 [ EvPost account_snaptag
                          (JObj [ ("image", JStr "/qr/teamsnapchat");
                                  ("type", JStr "SVG");
                                  ("username", JStr "teamsnapchat") ]) ]))
  /\ (exists message : string,
        downloadAvatar (canned (ok_reply JUndefined)) sample_decompress_result
                       (JStr "evan") (JFun 0) sample_world
        = (Throw (TypeError message),
           mkWorld sample_client
                   [ EvPost account_avatar_get
                            (JObj [ ("username_image", JStr "evan");
                                    ("username", JStr "teamsnapchat");
                                    ("size", JStr "MEDIUM") ]) ])).
Proof.
  destruct (downloads_missing_body (canned (ok_reply JUndefined)) sample_SKBlob_new
              sample_decompress_result (JStr "evan") (JFun 0) sample_world)
    as [Hsnaptag Havatar].
  split.
  - exact (Hsnaptag (conj eq_refl (or_introl eq_refl))).
  - exact (Havatar (conj eq_refl (or_introl eq_refl))).
Defined.
